(** * InstaDive backend ([main.py]): archive guards, record extraction and
    follower diffs.

    The development embeds the request handler [analyze_zip_files] of
    [main.py] and the helpers it calls.  The two libraries the handler
    leans on are modelled by what they hand back to it:

    - [zipfile]: an uploaded buffer is either not a zip container or a
      list of members, each with its name, the uncompressed size declared
      in its header and what [json.load] makes of its data;
    - [json]: a parsed document is a value of type [json]; number
      literals are integers (fractions and exponents are outside the
      model).

    Python strings are modelled by [string]: byte-wise lexicographic
    comparison of UTF-8 text agrees with Python's code point order, and
    substring and suffix tests agree as well. *)

From Stdlib Require Import ZArith NArith List String Ascii Bool Lia.
From Stdlib Require Import Permutation Sorted RelationClasses.
Import ListNotations.

Set Warnings "-register-all".

Local Open Scope string_scope.
Local Open Scope list_scope.
Local Open Scope Z_scope.

(** ** Exceptions and the result of a call *)

(** The exceptions the handler can meet.  [HTTPException] is the only one
    FastAPI turns into a response of its own status code. *)
Inductive exn : Type :=
| HTTPException (status_code : Z) (detail : string)
| BadZipFile
| JSONDecodeError
| KeyError
| TypeError
| AttributeError
| IndexError.

Inductive result (A : Type) : Type :=
| Ok (a : A)
| Raise (e : exn).

Arguments Ok {A} a.
Arguments Raise {A} e.

Definition bind {A B : Type} (c : result A) (k : A -> result B) : result B :=
  match c with
  | Ok a => k a
  | Raise e => Raise e
  end.

Notation "x <- c ;; k" := (bind c (fun x => k))
  (at level 61, c at next level, right associativity).
Notation "' p <- c ;; k" := (bind c (fun x => let p := x in k))
  (at level 61, p pattern, c at next level, right associativity).

(** [try: c except KeyError: return d]. *)
Definition except_KeyError {A : Type} (c : result A) (d : A) : result A :=
  match c with
  | Raise KeyError => Ok d
  | other => other
  end.

(** [if cond: raise e]. *)
Definition raise_if (cond : bool) (e : exn) : result unit :=
  if cond then Raise e else Ok tt.

Fixpoint mapM {A B : Type} (f : A -> result B) (l : list A) : result (list B) :=
  match l with
  | [] => Ok []
  | a :: l' => b <- f a ;; bs <- mapM f l' ;; Ok (b :: bs)
  end.

(** A comprehension with two [for] clauses: the inner sequence of every
    outer item, in order, stopping at the first exception. *)
Fixpoint flat_mapM {A B : Type} (f : A -> result (list B)) (l : list A)
  : result (list B) :=
  match l with
  | [] => Ok []
  | a :: l' => bs <- f a ;; rest <- flat_mapM f l' ;; Ok (bs ++ rest)
  end.

(** ** JSON documents as Python values *)

Inductive json : Type :=
| JNull
| JBool (b : bool)
| JNum (n : Z)
| JStr (s : string)
| JArr (items : list json)
| JObj (members : list (string * json)).

(** [json.load] keeps the last binding of a repeated key. *)
Fixpoint dict_lookup (key : string) (members : list (string * json))
  : option json :=
  match members with
  | [] => None
  | (k, v) :: rest =>
      match dict_lookup key rest with
      | Some v' => Some v'
      | None => if String.eqb k key then Some v else None
      end
  end.

(** The keys of a dict, each once, in the order of first insertion. *)
Fixpoint dict_keys (seen : list string) (members : list (string * json))
  : list string :=
  match members with
  | [] => []
  | (k, _) :: rest =>
      if existsb (String.eqb k) seen then dict_keys seen rest
      else k :: dict_keys (k :: seen) rest
  end.

(** The one-character strings of [s].  Every loop of this program that
    can meet such an item raises on the first one, so only whether [s] is
    empty shows. *)
Fixpoint chars (s : string) : list string :=
  match s with
  | EmptyString => []
  | String c s' => String c EmptyString :: chars s'
  end.

(** [v.get(key, default)]: only a dict has [get]. *)
Definition py_get (v : json) (key : string) (default : json) : result json :=
  match v with
  | JObj members =>
      match dict_lookup key members with
      | Some x => Ok x
      | None => Ok default
      end
  | _ => Raise AttributeError
  end.

(** [v[key]] for a string key. *)
Definition py_getitem (v : json) (key : string) : result json :=
  match v with
  | JObj members =>
      match dict_lookup key members with
      | Some x => Ok x
      | None => Raise KeyError
      end
  | _ => Raise TypeError
  end.

(** [v[0]].  A dict parsed from JSON has string keys only, so [0] is
    never one of them. *)
Definition py_getitem0 (v : json) : result json :=
  match v with
  | JArr [] => Raise IndexError
  | JArr (x :: _) => Ok x
  | JStr EmptyString => Raise IndexError
  | JStr (String c _) => Ok (JStr (String c EmptyString))
  | JObj _ => Raise KeyError
  | _ => Raise TypeError
  end.

(** Truth value of [v] in a condition. *)
Definition py_truthy (v : json) : bool :=
  match v with
  | JNull => false
  | JBool b => b
  | JNum n => negb (n =? 0)
  | JStr s => negb (String.eqb s "")
  | JArr items => match items with [] => false | _ => true end
  | JObj members => match members with [] => false | _ => true end
  end.

(** [for x in v]: lists give their items, dicts their keys, strings their
    characters; nothing else is iterable. *)
Definition py_iter (v : json) : result (list json) :=
  match v with
  | JArr items => Ok items
  | JObj members => Ok (map JStr (dict_keys [] members))
  | JStr s => Ok (map JStr (chars s))
  | _ => Raise TypeError
  end.

(** ** Sets of hashable values *)

(** Adding [v] to a set hashes it: lists and dicts are unhashable. *)
Definition py_hash (v : json) : result json :=
  match v with
  | JArr _ | JObj _ => Raise TypeError
  | _ => Ok v
  end.

(** The number a bool or an integer compares as. *)
Definition py_number (v : json) : option Z :=
  match v with
  | JBool b => Some (if b then 1 else 0)
  | JNum n => Some n
  | _ => None
  end.

(** [a == b] on hashable values: [True == 1] and [False == 0]. *)
Definition py_eqb (a b : json) : bool :=
  match a, b with
  | JNull, JNull => true
  | JStr s, JStr t => String.eqb s t
  | _, _ =>
      match py_number a, py_number b with
      | Some x, Some y => x =? y
      | _, _ => false
      end
  end.

Definition set_mem (v : json) (s : list json) : bool := existsb (py_eqb v) s.

(** A set is the list of its elements in insertion order; an element equal
    to one already present is not inserted again. *)
Definition set_add (s : list json) (v : json) : list json :=
  if set_mem v s then s else s ++ [v].

Definition py_set (values : list json) : list json :=
  fold_left set_add values [].

(** [a - b]. *)
Definition set_difference (a b : list json) : list json :=
  filter (fun v => negb (set_mem v b)) a.

(** ** [sorted] *)

(** [a < b]: defined between two strings and between two numbers, a
    [TypeError] otherwise ([None]). *)
Definition py_lt (a b : json) : option bool :=
  match a, b with
  | JStr s, JStr t => Some (String.ltb s t)
  | _, _ =>
      match py_number a, py_number b with
      | Some x, Some y => Some (x <? y)
      | _, _ => None
      end
  end.

Definition py_ltb (a b : json) : bool :=
  match py_lt a b with
  | Some true => true
  | _ => false
  end.

Definition comparable (a b : json) : bool :=
  match py_lt a b with
  | Some _ => true
  | None => false
  end.

(** Stable insertion: [x] goes before the first element that is not
    smaller than it. *)
Fixpoint insert (x : json) (l : list json) : list json :=
  match l with
  | [] => [x]
  | y :: l' => if py_ltb y x then y :: insert x l' else x :: y :: l'
  end.

Definition insertion_sort (l : list json) : list json :=
  fold_right insert [] l.

(** [sorted(l)]: a list of at most one element is returned without any
    comparison; otherwise every element takes part in a comparison, so a
    pair that cannot be compared raises [TypeError]. *)
Definition sorted (l : list json) : result (list json) :=
  match l with
  | [] => Ok []
  | [x] => Ok [x]
  | x :: _ =>
      if forallb (comparable x) l then Ok (insertion_sort l)
      else Raise TypeError
  end.

(** ** Strings *)

(** [sub in s]. *)
Fixpoint contains (sub s : string) : bool :=
  String.prefix sub s ||
  match s with
  | EmptyString => false
  | String _ s' => contains sub s'
  end.

(** [s.endswith(suffix)]. *)
Fixpoint endswith (s suffix : string) : bool :=
  String.eqb s suffix ||
  match s with
  | EmptyString => false
  | String _ s' => endswith s' suffix
  end.

Definition lower_ascii (c : ascii) : ascii :=
  let n := nat_of_ascii c in
  if (Nat.leb 65 n && Nat.leb n 90)%bool then ascii_of_nat (n + 32) else c.

(** [s.lower()] on the ASCII letters.  No other character lowers to a
    letter or a dot of the extensions tested below, so the suffix test
    on the result is the one Python makes. *)
Fixpoint lower (s : string) : string :=
  match s with
  | EmptyString => EmptyString
  | String c s' => String (lower_ascii c) (lower s')
  end.

(** ** Archives *)

(** A member of an archive: its name, the uncompressed size its header
    declares, and the document [json.load] reads from its data ([None]
    when the data is not JSON text). *)
Record ZipInfo : Type := {
  filename : string;
  file_size : N;
  parsed : option json
}.

(** An uploaded buffer, as [zipfile] sees it. *)
Inductive zip_bytes : Type :=
| NotAZip
| ZipArchive (members : list ZipInfo).

Definition ZipFile (b : zip_bytes) : result (list ZipInfo) :=
  match b with
  | NotAZip => Raise BadZipFile
  | ZipArchive members => Ok members
  end.

Definition infolist (z : list ZipInfo) : list ZipInfo := z.

Definition namelist (z : list ZipInfo) : list string := map filename z.

(** [z.open(name)]: [zipfile] keeps one member per name, the last one
    read from the directory; an unknown name is a [KeyError]. *)
Fixpoint zip_open (z : list ZipInfo) (name : string) : result ZipInfo :=
  match z with
  | [] => Raise KeyError
  | info :: rest =>
      match zip_open rest name with
      | Ok found => Ok found
      | Raise _ => if String.eqb (filename info) name then Ok info
                   else Raise KeyError
      end
  end.

Definition json_load (f : ZipInfo) : result json :=
  match parsed f with
  | Some document => Ok document
  | None => Raise JSONDecodeError
  end.

(** ** Security settings *)

Definition MAX_SIZE : N := 50 * 1024 * 1024.
Definition MAX_FILES : nat := 100.
Definition DANGEROUS_EXTENSIONS : list string := [".exe"; ".bat"; ".py"; ".sh"].

(** [sum(...)] of sizes. *)
Definition sum (sizes : list N) : N := fold_left N.add sizes 0%N.

Definition is_zip_safe (b : zip_bytes) : result bool :=
  z <- ZipFile b ;;
  Ok (sum (map file_size (infolist z)) <=? MAX_SIZE)%N.

Definition has_too_many_files (b : zip_bytes) : result bool :=
  z <- ZipFile b ;;
  Ok (Nat.ltb MAX_FILES (List.length (infolist z))).

Definition has_dangerous_files (b : zip_bytes) : result bool :=
  z <- ZipFile b ;;
  Ok (existsb (fun name => existsb (endswith (lower name)) DANGEROUS_EXTENSIONS)
        (namelist z)).

(** ** Followers and following *)

Definition missing_detail : string :=
  "followers_1.json 또는 following.json이 누락됨".

(** [not path]: no name found, or an empty one. *)
Definition not_path (path : option string) : bool :=
  match path with
  | None => true
  | Some n => String.eqb n ""
  end.

(** The values [entry["value"] for entry in item.get("string_list_data", [])],
    each hashed as it enters the set. *)
Definition string_list_values (item : json) : result (list json) :=
  string_list_data <- py_get item "string_list_data" (JArr []) ;;
  entries <- py_iter string_list_data ;;
  mapM (fun entry => v <- py_getitem entry "value" ;; py_hash v) entries.

Definition extract_usernames_from_zip (b : zip_bytes)
  : result (list json * list json) :=
  zip_file <- ZipFile b ;;
  let followers_path := find (contains "followers_1.json") (namelist zip_file) in
  let following_path := find (contains "following.json") (namelist zip_file) in
  _ <- raise_if (not_path followers_path || not_path following_path)
         (HTTPException 400 missing_detail) ;;
  f <- zip_open zip_file (match followers_path with Some n => n | None => "" end) ;;
  followers_data <- json_load f ;;
  items <- py_iter followers_data ;;
  values <- flat_mapM string_list_values items ;;
  let followers := py_set values in
  f <- zip_open zip_file (match following_path with Some n => n | None => "" end) ;;
  following_data <- json_load f ;;
  relationships <- py_get following_data "relationships_following" (JArr []) ;;
  items <- py_iter relationships ;;
  values <- flat_mapM string_list_values items ;;
  let following := py_set values in
  Ok (followers, following).

(** ** Optional documents *)

(** One step of
    [[entry["string_list_data"][0]["value"] for entry in ... if entry.get("string_list_data")]]. *)
Definition first_value (entry : json) : result (list json) :=
  cond <- py_get entry "string_list_data" JNull ;;
  if py_truthy cond then
    string_list_data <- py_getitem entry "string_list_data" ;;
    first <- py_getitem0 string_list_data ;;
    v <- py_getitem first "value" ;;
    Ok [v]
  else Ok [].

Definition recently_unfollowed_path : string :=
  "connections/followers_and_following/recently_unfollowed_profiles.json".
Definition blocked_path : string :=
  "connections/followers_and_following/blocked_profiles.json".
Definition pending_path : string :=
  "connections/followers_and_following/pending_follow_requests.json".

Definition extract_recently_unfollowed (b : zip_bytes) : result (list json) :=
  zip_file <- ZipFile b ;;
  except_KeyError
    (f <- zip_open zip_file recently_unfollowed_path ;;
     data <- json_load f ;;
     users <- py_get data "relationships_unfollowed_users" (JArr []) ;;
     entries <- py_iter users ;;
     flat_mapM first_value entries)
    [].

Definition extract_blocked_users (b : zip_bytes) : result (list json) :=
  zip_file <- ZipFile b ;;
  except_KeyError
    (f <- zip_open zip_file blocked_path ;;
     data <- json_load f ;;
     users <- py_get data "relationships_blocked_users" (JArr []) ;;
     entries <- py_iter users ;;
     mapM (fun entry => py_getitem entry "title") entries)
    [].

Definition extract_pending_requests (b : zip_bytes) : result (list json) :=
  zip_file <- ZipFile b ;;
  except_KeyError
    (f <- zip_open zip_file pending_path ;;
     data <- json_load f ;;
     users <- py_get data "relationships_follow_requests_sent" (JArr []) ;;
     entries <- py_iter users ;;
     flat_mapM first_value entries)
    [].

(** ** The analysis endpoint *)

(** The dict the handler returns. *)
Record analysis : Type := {
  unfollowers : list json;
  not_following_back : list json;
  recently_unfollowed : list json;
  blocked_users : list json;
  pending_requests : list json
}.

Definition oversize_detail (role : string) : string :=
  (role ++ " 압축 해제 용량 초과")%string.
Definition too_many_detail (role : string) : string :=
  (role ++ " 파일 수 초과")%string.
Definition dangerous_detail (role : string) : string :=
  (role ++ "에 위험한 파일이 포함됨")%string.

(** The three checks the handler makes on an upload, in its order. *)
Definition checks (role : string) (b : zip_bytes) : result unit :=
  safe <- is_zip_safe b ;;
  _ <- raise_if (negb safe) (HTTPException 400 (oversize_detail role)) ;;
  many <- has_too_many_files b ;;
  _ <- raise_if many (HTTPException 400 (too_many_detail role)) ;;
  dangerous <- has_dangerous_files b ;;
  raise_if dangerous (HTTPException 400 (dangerous_detail role)).

(** [analyze_zip_files(new_zip, old_zip)].  [list_of_set] is [list(s)]:
    the order in which the interpreter happens to iterate a set. *)
Definition analyze_zip_files (list_of_set : list json -> list json)
    (new_zip : zip_bytes) (old_zip : option zip_bytes) : result analysis :=
  let new_bytes := new_zip in
  _ <- checks "new_zip" new_bytes ;;
  '(new_followers, new_following) <- extract_usernames_from_zip new_bytes ;;
  recently_unfollowed <- extract_recently_unfollowed new_bytes ;;
  blocked_users <- extract_blocked_users new_bytes ;;
  pending_requests <- extract_pending_requests new_bytes ;;
  unfollowers <-
    match old_zip with
    | Some old_bytes =>
        _ <- checks "old_zip" old_bytes ;;
        '(old_followers, _) <- extract_usernames_from_zip old_bytes ;;
        sorted (list_of_set (set_difference old_followers new_followers))
    | None => Ok []
    end ;;
  not_following_back <-
    sorted (list_of_set (set_difference new_following new_followers)) ;;
  Ok {| unfollowers := unfollowers;
        not_following_back := not_following_back;
        recently_unfollowed := recently_unfollowed;
        blocked_users := blocked_users;
        pending_requests := pending_requests |}.

(** ** The transport around the handler *)

Inductive body : Type :=
| Detail (reason : string)
| Payload (a : analysis).

Record response : Type := {
  status_code : Z;
  content : body
}.

(** What the application under the middleware makes of the handler's
    outcome: FastAPI answers an [HTTPException] itself and lets every
    other exception through. *)
Definition call_next (r : result analysis) : result response :=
  match r with
  | Ok a => Ok {| status_code := 200; content := Payload a |}
  | Raise (HTTPException status detail) =>
      Ok {| status_code := status; content := Detail detail |}
  | Raise e => Raise e
  end.

Definition validate_origin_middleware (r : result analysis) : response :=
  match call_next r with
  | Ok resp => resp
  | Raise _ =>
      {| status_code := 500; content := Detail "Internal server error" |}
  end.

(** A client error is a response in the 4xx range. *)
Definition client_error (resp : response) : bool :=
  (400 <=? status_code resp) && (status_code resp <? 500).

(** ** Vocabulary of the statements *)

(** Strictly ascending in Python's order: every element is smaller than
    all those after it. *)
Definition ascending (l : list json) : Prop :=
  StronglySorted (fun a b => py_lt a b = Some true) l.

(** No two elements of the list are equal in Python's sense. *)
Fixpoint distinct (l : list json) : Prop :=
  match l with
  | [] => True
  | x :: l' => set_mem x l' = false /\ distinct l'
  end.

(** An iteration order for sets: [list(s)] enumerates the elements of
    [s], each once, in some order. *)
Definition iteration_order (list_of_set : list json -> list json) : Prop :=
  forall s, Permutation (list_of_set s) s.

(** [out] is [sorted(a - b)]: the ascending list, without repetition, of
    the elements of [a] that [b] has no equal of. *)
Definition is_sorted_difference (a b out : list json) : Prop :=
  sorted (set_difference a b) = Ok out /\
  ascending out /\ NoDup out /\
  (forall v, In v out <-> In v a /\ set_mem v b = false).

(** ** The stages of the orchestrator, as the specification names them *)

(** [ExtractedSnapshot]: what the extractors make of one archive. *)
Record snapshot : Type := {
  followers : list json;
  following : list json;
  recentlyUnfollowed : list json;
  blockedUsers : list json;
  pendingRequests : list json
}.

Definition validate (role : string) (b : zip_bytes) : result unit :=
  checks role b.

(** [extractSnapshot] with its three optional extractions. *)
Definition extractSnapshot (b : zip_bytes) : result snapshot :=
  '(new_followers, new_following) <- extract_usernames_from_zip b ;;
  recently <- extract_recently_unfollowed b ;;
  blocked <- extract_blocked_users b ;;
  pending <- extract_pending_requests b ;;
  Ok {| followers := new_followers;
        following := new_following;
        recentlyUnfollowed := recently;
        blockedUsers := blocked;
        pendingRequests := pending |}.

(** The followers-only extraction from the old archive. *)
Definition extractFollowers (b : zip_bytes) : result (list json) :=
  '(old_followers, _) <- extract_usernames_from_zip b ;;
  Ok old_followers.

(** [diff(oldFollowers, newFollowers, newFollowing)] and the assembly of
    the result. *)
Definition diff (list_of_set : list json -> list json)
    (oldFollowers : option (list json)) (s : snapshot) : result analysis :=
  gone <-
    match oldFollowers with
    | Some old_followers =>
        sorted (list_of_set (set_difference old_followers (followers s)))
    | None => Ok []
    end ;;
  not_back <- sorted (list_of_set (set_difference (following s) (followers s))) ;;
  Ok {| unfollowers := gone;
        not_following_back := not_back;
        recently_unfollowed := recentlyUnfollowed s;
        blocked_users := blockedUsers s;
        pending_requests := pendingRequests s |}.

(** The sequence the specification gives: validate(new), validate(old),
    extractSnapshot(new), followers of old, diff. *)
Definition specified_sequence (list_of_set : list json -> list json)
    (new_zip : zip_bytes) (old_zip : option zip_bytes) : result analysis :=
  _ <- validate "new_zip" new_zip ;;
  _ <- match old_zip with
       | Some old_bytes => validate "old_zip" old_bytes
       | None => Ok tt
       end ;;
  s <- extractSnapshot new_zip ;;
  oldFollowers <-
    match old_zip with
    | Some old_bytes => f <- extractFollowers old_bytes ;; Ok (Some f)
    | None => Ok None
    end ;;
  diff list_of_set oldFollowers s.

(** The sequence of the handler: validate(new), extractSnapshot(new),
    validate(old), followers of old, diff. *)
Definition handler_sequence (list_of_set : list json -> list json)
    (new_zip : zip_bytes) (old_zip : option zip_bytes) : result analysis :=
  _ <- validate "new_zip" new_zip ;;
  s <- extractSnapshot new_zip ;;
  oldFollowers <-
    match old_zip with
    | Some old_bytes =>
        _ <- validate "old_zip" old_bytes ;;
        f <- extractFollowers old_bytes ;;
        Ok (Some f)
    | None => Ok None
    end ;;
  diff list_of_set oldFollowers s.

(** No member name of the archive contains [sub]. *)
Definition lacks (sub : string) (members : list ZipInfo) : Prop :=
  Forall (fun n => contains sub n = false) (namelist members).

(** The archive has a member under [path] whose data is not JSON text. *)
Definition unparsable_at (members : list ZipInfo) (path : string) : Prop :=
  exists info, zip_open members path = Ok info /\ parsed info = None.


(** [p] is the first of [names] that contains [sub]. *)
Definition first_match (sub : string) (names : list string) (p : string) : Prop :=
  exists pre post,
    names = pre ++ p :: post /\
    contains sub p = true /\
    Forall (fun n => contains sub n = false) pre.

(** The two [with] blocks of [extract_usernames_from_zip], reading the
    followers from [followers_path] and the following from
    [following_path]. *)
Definition read_usernames (zip_file : list ZipInfo)
    (followers_path following_path : string) : result (list json * list json) :=
  f <- zip_open zip_file followers_path ;;
  followers_data <- json_load f ;;
  items <- py_iter followers_data ;;
  values <- flat_mapM string_list_values items ;;
  let followers := py_set values in
  f <- zip_open zip_file following_path ;;
  following_data <- json_load f ;;
  relationships <- py_get following_data "relationships_following" (JArr []) ;;
  items <- py_iter relationships ;;
  values <- flat_mapM string_list_values items ;;
  let following := py_set values in
  Ok (followers, following).

(** A record of a document is a JSON object; it may carry a [title]. *)
Definition is_record (v : json) : bool :=
  match v with
  | JObj _ => true
  | _ => false
  end.

Definition has_title (v : json) : bool :=
  match v with
  | JObj members =>
      match dict_lookup "title" members with
      | Some _ => true
      | None => false
      end
  | _ => false
  end.

(** ** Sample exports *)

(** A record of the export: [{"string_list_data": [{"value": v}, ...]}]. *)
Definition record (values : list json) : json :=
  JObj [("string_list_data", JArr (map (fun v => JObj [("value", v)]) values))].

Definition followers_document (names : list string) : json :=
  JArr (map (fun n => record [JStr n]) names).

Definition following_document (names : list string) : json :=
  JObj [("relationships_following", JArr (map (fun n => record [JStr n]) names))].

Definition followers_name : string :=
  "connections/followers_and_following/followers_1.json".
Definition following_name : string :=
  "connections/followers_and_following/following.json".

Definition member (name : string) (size : N) (document : json) : ZipInfo :=
  {| filename := name; file_size := size; parsed := Some document |}.

(** An export holding the two required documents. *)
Definition export (followers following : list string) : zip_bytes :=
  ZipArchive [member followers_name 64 (followers_document followers);
              member following_name 64 (following_document following)].

(** An analysis of two exports whose documents repeat values. *)
Definition repeating_new : zip_bytes := export ["a"; "c"; "a"] ["a"; "d"; "e"; "d"].
Definition repeating_old : zip_bytes := export ["c"; "b"; "a"; "b"; "B"] [].
Definition repeating_result : analysis :=
  {| unfollowers := [JStr "B"; JStr "b"];
     not_following_back := [JStr "d"; JStr "e"];
     recently_unfollowed := [];
     blocked_users := [];
     pending_requests := [] |}.

(** A new export whose followers document is not JSON text, and an old
    one that declares more than the size ceiling. *)
Definition unparsable_new : zip_bytes :=
  ZipArchive [{| filename := followers_name; file_size := 64; parsed := None |};
              member following_name 64 (following_document ["a"])].
Definition oversize_old : zip_bytes :=
  ZipArchive [member followers_name 52428801 (followers_document ["a"]);
              member following_name 64 (following_document [])].

(** Exports that miss one of the two required documents. *)
Definition only_following : zip_bytes :=
  ZipArchive [member following_name 64 (following_document ["a"])].
Definition only_followers : zip_bytes :=
  ZipArchive [member followers_name 64 (followers_document ["a"])].

(** A complete export whose blocked-profiles document is not JSON text. *)
Definition unparsable_blocked : list ZipInfo :=
  [member followers_name 64 (followers_document ["a"]);
   member following_name 64 (following_document ["a"]);
   {| filename := blocked_path; file_size := 64; parsed := None |}].


(** Two old exports with the same followers and following documents:
    the second carries optional documents that are not JSON text. *)
Definition old_plain : list ZipInfo :=
  [member followers_name 64 (followers_document ["a"; "b"; "z"]);
   member following_name 64 (following_document ["q"]);
   member blocked_path 64 (JObj []);
   member pending_path 64 (JObj [])].
Definition old_garbled : list ZipInfo :=
  [member followers_name 64 (followers_document ["a"; "b"; "z"]);
   member following_name 64 (following_document ["q"]);
   {| filename := blocked_path; file_size := 64; parsed := None |};
   {| filename := pending_path; file_size := 64; parsed := None |}].

(** An export in which two member names contain [followers_1.json] and
    two contain [following.json]. *)
Definition doubled : list ZipInfo :=
  [member "a/followers_1.json" 64 (followers_document ["x"; "y"]);
   member "a/following.json" 64 (following_document ["x"; "w"]);
   member "b/followers_1.json" 64 (followers_document ["other"]);
   member "b/following.json" 64 JNull].
Definition doubled_otherwise : list ZipInfo :=
  [member "a/followers_1.json" 64 (followers_document ["x"; "y"]);
   member "a/following.json" 64 (following_document ["x"; "w"]);
   {| filename := "b/followers_1.json"; file_size := 1; parsed := None |};
   member "b/following.json" 2 (JArr [])].

(** An export whose blocked-profiles document has a record without a
    [title] between two records that have one. *)
Definition blocked_records : list json :=
  [JObj [("title", JStr "first")];
   JObj [("timestamp", JNum 1700000000)];
   JObj [("title", JStr "third")]].
Definition untitled_blocked : list ZipInfo :=
  [member followers_name 64 (followers_document ["a"; "c"]);
   member following_name 64 (following_document ["a"; "d"]);
   member blocked_path 64
     (JObj [("relationships_blocked_users", JArr blocked_records)])].

(** ** Vocabulary of the further properties *)

(** The last character of a string. *)
Fixpoint last_char (s : string) : option ascii :=
  match s with
  | EmptyString => None
  | String c EmptyString => Some c
  | String _ s' => last_char s'
  end.

(** The call raises no [HTTPException]: it returns, or raises one of
    Python's own exceptions. *)
Definition no_http {A : Type} (c : result A) : Prop :=
  forall status detail, c <> Raise (HTTPException status detail).

(** [record] is an object whose [title] is [title]. *)
Definition titled (record title : json) : Prop :=
  exists fields, record = JObj fields /\ dict_lookup "title" fields = Some title.

(** What a record contributes to the list of recently unfollowed or
    pending accounts: nothing when it has no [string_list_data] or an
    empty one, the [value] of the first entry otherwise. *)
Inductive first_entry : json -> list json -> Prop :=
| first_entry_absent (fields : list (string * json)) :
    dict_lookup "string_list_data" fields = None ->
    first_entry (JObj fields) []
| first_entry_falsy (fields : list (string * json)) (data : json) :
    dict_lookup "string_list_data" fields = Some data ->
    py_truthy data = false ->
    first_entry (JObj fields) []
| first_entry_value (fields entry : list (string * json)) (rest : list json)
    (v : json) :
    dict_lookup "string_list_data" fields = Some (JArr (JObj entry :: rest)) ->
    dict_lookup "value" entry = Some v ->
    first_entry (JObj fields) [v].

(** A record whose first [string_list_data] entry has no [value]. *)
Definition first_entry_unvalued (record : json) : Prop :=
  exists fields entry rest,
    record = JObj fields /\
    dict_lookup "string_list_data" fields = Some (JArr (JObj entry :: rest)) /\
    dict_lookup "value" entry = None.

(** Sample optional documents: a record as the export writes it, with a
    link and a timestamp beside the value. *)
Definition profile (name : string) : json :=
  JObj [("title", JStr "");
        ("string_list_data",
         JArr [JObj [("href", JStr ("https://www.instagram.com/" ++ name));
                     ("value", JStr name);
                     ("timestamp", JNum 1700000000)];
               JObj [("value", JStr "second entry")]])].

Definition sample_unfollowed : list json :=
  [profile "x"; JObj [("title", JStr "no list")]; profile "y";
   JObj [("string_list_data", JArr [])]; profile "x"].

Definition with_unfollowed (records : list json) : list ZipInfo :=
  [member followers_name 64 (followers_document ["a"]);
   member following_name 64 (following_document ["a"]);
   member recently_unfollowed_path 64
     (JObj [("relationships_unfollowed_users", JArr records)])].

Definition with_blocked (document : json) : list ZipInfo :=
  [member followers_name 64 (followers_document ["a"]);
   member following_name 64 (following_document ["a"]);
   member blocked_path 64 document].

Definition sample_blocked : list json :=
  [JObj [("title", JStr "z"); ("string_list_data", JArr [])];
   JObj [("title", JStr "a")];
   JObj [("title", JStr "z")]].

(** [entry] is an object whose [value] is [value]. *)
Definition valued (entry value : json) : Prop :=
  exists fields, entry = JObj fields /\ dict_lookup "value" fields = Some value.

(** What an item of the followers or following list contributes: the
    values of all the entries of its [string_list_data], none when it has
    no such list. *)
Inductive item_values : json -> list json -> Prop :=
| item_values_absent (fields : list (string * json)) :
    dict_lookup "string_list_data" fields = None ->
    item_values (JObj fields) []
| item_values_entries (fields : list (string * json)) (entries values : list json) :
    dict_lookup "string_list_data" fields = Some (JArr entries) ->
    Forall2 valued entries values ->
    item_values (JObj fields) values.

(** The names as JSON strings, item by item. *)
Definition names_of (names : list (list string)) : list (list json) :=
  map (map JStr) names.

(** A small export kept under a directory of its own, whose items carry
    none, one or two names. *)
Definition nested_followers : list json :=
  [record [JStr "a"; JStr "b"]; JObj [("title", JStr "")]; record [JStr "a"]].
Definition nested_following : list json :=
  [record [JStr "c"]; record []].
Definition nested_export : list ZipInfo :=
  [member "README.json" 1 JNull;
   member "export/2024/followers_1.json" 64 (JArr nested_followers);
   member "export/2024/following.json" 64
     (JObj [("relationships_following", JArr nested_following)])].

(** An item of the followers or following list one of whose entries has
    no [value], the entries before it having names for values. *)
Definition item_unvalued (item : json) : Prop :=
  exists fields good names bad more,
    item = JObj fields /\
    dict_lookup "string_list_data" fields = Some (JArr (good ++ JObj bad :: more)) /\
    Forall2 valued good (map JStr names) /\
    dict_lookup "value" bad = None.

(** An export whose followers document is an object, and one whose
    second follower has lost its [value]. *)
Definition followers_as_object : list ZipInfo :=
  [member followers_name 64
     (JObj [("relationships_followers", JArr [record [JStr "a"]])]);
   member following_name 64 (following_document ["a"])].
Definition follower_unvalued : list ZipInfo :=
  [member followers_name 64
     (JArr [record [JStr "a"];
            JObj [("string_list_data", JArr [JObj [("href", JStr "h")]])];
            record [JStr "c"]]);
   member following_name 64 (following_document ["a"])].

(** ** Vocabulary of the revised statements *)

(** The sizes the members declare, added up member by member. *)
Fixpoint declared_total (members : list ZipInfo) : N :=
  match members with
  | [] => 0%N
  | info :: rest => (file_size info + declared_total rest)%N
  end.

(** [info] is the last member of the archive stored under [name]. *)
Definition last_named (members : list ZipInfo) (name : string) (info : ZipInfo)
  : Prop :=
  exists before after,
    members = before ++ info :: after /\
    filename info = name /\
    Forall (fun other => filename other <> name) after.



(** An export that stores two members under the name [followers_1.json]. *)
Definition stored_twice : list ZipInfo :=
  [member "followers_1.json" 64 (followers_document ["first"]);
   member "following.json" 64 (following_document ["x"]);
   member "followers_1.json" 64 (followers_document ["last"])].
Definition stored_twice_otherwise : list ZipInfo :=
  [{| filename := "followers_1.json"; file_size := 1; parsed := None |};
   member "z/followers_1.json" 3 JNull;
   member "followers_1.json" 64 (followers_document ["last"]);
   member "following.json" 5 JNull;
   member "following.json" 64 (following_document ["x"])].

(** An export whose blocked-profiles list holds a string between a
    titled record and an untitled one. *)
Definition mistyped_records : list json :=
  [JObj [("title", JStr "first")];
   JStr "oops";
   JObj [("timestamp", JNum 1700000000)]].
Definition mistyped_blocked : list ZipInfo :=
  [member followers_name 64 (followers_document ["a"; "c"]);
   member following_name 64 (following_document ["a"; "d"]);
   member blocked_path 64
     (JObj [("relationships_blocked_users", JArr mistyped_records)])].

(** * Properties *)

(** ** The result monad *)

Lemma bind_Ok {A B : Type} (c : result A) (k : A -> result B) (b : B) :
  bind c k = Ok b -> exists a, c = Ok a /\ k a = Ok b.
Proof.
  destruct c as [a | e]; simpl; intros H; [eauto | discriminate].
Qed.

Lemma raise_if_Ok (cond : bool) (e : exn) (u : unit) :
  raise_if cond e = Ok u -> cond = false.
Proof.
  destruct cond; simpl; [discriminate | reflexivity].
Qed.

(** ** Python's order on the values of a set *)

Lemma string_compare_refl (s : string) : String.compare s s = Eq.
Proof.
  induction s as [| c s IH]; simpl; [reflexivity |].
  unfold Ascii.compare. now rewrite N.compare_refl.
Qed.

Lemma string_compare_trans (a b c : string) :
  String.compare a b = Lt -> String.compare b c = Lt -> String.compare a c = Lt.
Proof.
  revert b c.
  induction a as [| x a IH]; intros [| y b] [| z c]; simpl;
    try discriminate; try reflexivity.
  unfold Ascii.compare.
  destruct (N.compare_spec (N_of_ascii x) (N_of_ascii y)) as [Exy | Lxy | Gxy];
    try discriminate;
    destruct (N.compare_spec (N_of_ascii y) (N_of_ascii z)) as [Eyz | Lyz | Gyz];
    try discriminate; intros Hab Hbc.
  - rewrite Exy, Eyz, N.compare_refl. now apply IH with b.
  - rewrite Exy. now apply N.compare_lt_iff in Lyz as ->.
  - rewrite <- Eyz. now apply N.compare_lt_iff in Lxy as ->.
  - assert (H : (N_of_ascii x < N_of_ascii z)%N) by lia.
    now apply N.compare_lt_iff in H as ->.
Qed.

Lemma string_ltb_irrefl (s : string) : String.ltb s s = false.
Proof.
  unfold String.ltb. now rewrite string_compare_refl.
Qed.

Lemma string_ltb_trans (a b c : string) :
  String.ltb a b = true -> String.ltb b c = true -> String.ltb a c = true.
Proof.
  unfold String.ltb. intros Hab Hbc.
  destruct (String.compare a b) eqn:Eab; try discriminate.
  destruct (String.compare b c) eqn:Ebc; try discriminate.
  now rewrite (string_compare_trans a b c Eab Ebc).
Qed.

Lemma string_ltb_total (a b : string) :
  String.ltb a b = false -> String.eqb a b = false -> String.ltb b a = true.
Proof.
  unfold String.ltb. intros Hab Hne.
  rewrite String.compare_antisym.
  destruct (String.compare a b) eqn:E; simpl; try discriminate; try reflexivity.
  apply String.compare_eq_iff in E. subst b.
  now rewrite String.eqb_refl in Hne.
Qed.

Lemma string_ltb_asym (a b : string) :
  String.ltb a b = true -> String.ltb b a = false.
Proof.
  unfold String.ltb. rewrite (String.compare_antisym b a).
  now destruct (String.compare a b).
Qed.

Lemma py_ltb_irrefl (a : json) : py_ltb a a = false.
Proof.
  unfold py_ltb, py_lt.
  destruct a as [| [|] | n | s | l | m]; simpl; try reflexivity.
  - now rewrite Z.ltb_irrefl.
  - now rewrite string_ltb_irrefl.
Qed.

Lemma py_ltb_number (a b : json) (x y : Z) :
  py_number a = Some x -> py_number b = Some y -> py_ltb a b = (x <? y).
Proof.
  unfold py_ltb, py_lt.
  destruct a, b; simpl; try discriminate; intros [= <-] [= <-];
    now destruct (_ <? _).
Qed.

(** [a < b] holds only between two strings or between two numbers. *)
Lemma py_ltb_true (a b : json) :
  py_ltb a b = true ->
  (exists s t, a = JStr s /\ b = JStr t /\ String.ltb s t = true) \/
  (exists x y, py_number a = Some x /\ py_number b = Some y /\ x < y).
Proof.
  unfold py_ltb, py_lt.
  destruct a as [| p | n | s | l | m], b as [| q | k | t | l' | m']; simpl;
    try discriminate; intros H.
  all: try (right; do 2 eexists; repeat split; try reflexivity;
            destruct (_ <? _) eqn:E; [now apply Z.ltb_lt in E | discriminate]).
  left. exists s, t. repeat split. now destruct (String.ltb s t).
Qed.

Lemma py_ltb_trans (a b c : json) :
  py_ltb a b = true -> py_ltb b c = true -> py_ltb a c = true.
Proof.
  intros Hab Hbc.
  destruct (py_ltb_true a b Hab) as [(s & t & -> & -> & Hst) | (x & y & Hx & Hy & Hxy)];
    destruct (py_ltb_true _ c Hbc) as [(t' & u & Et & -> & Htu) | (y' & z & Hy' & Hz & Hyz)].
  - injection Et as <-. unfold py_ltb, py_lt.
    now rewrite (string_ltb_trans s t u Hst Htu).
  - discriminate.
  - subst b. discriminate.
  - rewrite Hy in Hy'. injection Hy' as <-.
    rewrite (py_ltb_number a c x z Hx Hz). apply Z.ltb_lt. lia.
Qed.

Lemma py_ltb_asym (a b : json) : py_ltb a b = true -> py_ltb b a = false.
Proof.
  intros Hab.
  destruct (py_ltb_true a b Hab) as [(s & t & -> & -> & Hst) | (x & y & Hx & Hy & Hxy)].
  - unfold py_ltb, py_lt. now rewrite (string_ltb_asym s t Hst).
  - rewrite (py_ltb_number b a y x Hy Hx). apply Z.ltb_ge. lia.
Qed.

(** Two values that can be compared and are not equal are ordered one way
    or the other. *)
Lemma py_ltb_total (a b : json) :
  comparable a b = true -> py_eqb a b = false -> py_ltb a b = false ->
  py_ltb b a = true.
Proof.
  unfold comparable, py_ltb, py_lt, py_eqb.
  destruct a as [| p | n | s | l | m], b as [| q | k | t | l' | m']; simpl;
    try discriminate; intros _ Hne Hlt.
  all: try (apply Z.eqb_neq in Hne;
            destruct (_ <? _) eqn:E in Hlt; [discriminate |];
            apply Z.ltb_ge in E;
            destruct (_ <? _) eqn:E'; [reflexivity |];
            apply Z.ltb_ge in E'; lia).
  destruct (String.ltb s t) eqn:E; [discriminate |].
  now rewrite (string_ltb_total s t E Hne).
Qed.

Lemma py_eqb_sym (a b : json) : py_eqb a b = py_eqb b a.
Proof.
  unfold py_eqb.
  destruct a as [| p | n | s | l | m], b as [| q | k | t | l' | m']; simpl;
    try reflexivity; try apply Z.eqb_sym.
  apply String.eqb_sym.
Qed.

(** Being comparable is an equivalence on the values it relates. *)
Lemma comparable_sym (a b : json) : comparable a b = comparable b a.
Proof.
  unfold comparable, py_lt.
  now destruct a as [| p | n | s | l | m], b as [| q | k | t | l' | m'].
Qed.

Lemma comparable_trans (a b c : json) :
  comparable a b = true -> comparable b c = comparable a c.
Proof.
  unfold comparable, py_lt.
  destruct a as [| p | n | s | l | m], b as [| q | k | t | l' | m'];
    simpl; try discriminate; intros _;
    now destruct c.
Qed.

(** ** Sets *)

Lemma set_mem_false (v : json) (s : list json) :
  set_mem v s = false <-> Forall (fun x => py_eqb v x = false) s.
Proof.
  unfold set_mem. induction s as [| x s IH]; simpl.
  - split; [constructor | reflexivity].
  - rewrite orb_false_iff, IH. split.
    + intros [H1 H2]. now constructor.
    + intros H. inversion H. now split.
Qed.

Lemma distinct_snoc (s : list json) (v : json) :
  distinct s -> set_mem v s = false -> distinct (s ++ [v]).
Proof.
  induction s as [| x s IH]; simpl; intros Hd Hv.
  - now split.
  - destruct Hd as [Hx Hd]. unfold set_mem in Hv. simpl in Hv.
    apply orb_false_iff in Hv as [Hvx Hv].
    split; [| now apply IH].
    unfold set_mem. rewrite existsb_app. fold (set_mem x s). rewrite Hx. simpl.
    now rewrite py_eqb_sym, Hvx.
Qed.

Lemma distinct_fold_set_add (values acc : list json) :
  distinct acc -> distinct (fold_left set_add values acc).
Proof.
  revert acc. induction values as [| v values IH]; simpl; intros acc Hd.
  - exact Hd.
  - apply IH. unfold set_add. destruct (set_mem v acc) eqn:E.
    + exact Hd.
    + now apply distinct_snoc.
Qed.

(** A set built by a comprehension holds no value twice. *)
Lemma distinct_py_set (values : list json) : distinct (py_set values).
Proof.
  apply distinct_fold_set_add. exact I.
Qed.

Lemma distinct_filter (f : json -> bool) (l : list json) :
  distinct l -> distinct (filter f l).
Proof.
  induction l as [| x l IH]; simpl; [trivial |].
  intros [Hx Hd]. destruct (f x); simpl; [| now apply IH].
  split; [| now apply IH].
  apply set_mem_false. apply set_mem_false in Hx.
  rewrite Forall_forall in *. intros y Hy. apply Hx.
  now apply filter_In in Hy.
Qed.

Lemma distinct_set_difference (a b : list json) :
  distinct a -> distinct (set_difference a b).
Proof.
  apply distinct_filter.
Qed.

Lemma distinct_Permutation (l l' : list json) :
  Permutation l l' -> distinct l -> distinct l'.
Proof.
  induction 1 as [| x l l' HP IH | x y l | l l' l'' HP1 IH1 HP2 IH2]; simpl.
  - trivial.
  - intros [Hx Hd]. split; [| now apply IH].
    apply set_mem_false. apply set_mem_false in Hx.
    now rewrite <- HP.
  - intros [Hy [Hx Hd]]. unfold set_mem in *. simpl in *.
    apply orb_false_iff in Hy as [Hyx Hy].
    rewrite Hx, Hy, py_eqb_sym, Hyx. auto.
  - auto.
Qed.

(** ** [sorted] *)

Lemma insert_Permutation (x : json) (l : list json) :
  Permutation (insert x l) (x :: l).
Proof.
  induction l as [| y l IH]; simpl; [reflexivity |].
  destruct (py_ltb y x); [| reflexivity].
  rewrite IH. apply perm_swap.
Qed.

Lemma insertion_sort_Permutation (l : list json) :
  Permutation (insertion_sort l) l.
Proof.
  induction l as [| x l IH]; simpl; [reflexivity |].
  now rewrite insert_Permutation, IH.
Qed.

Lemma py_ltb_lt (a b : json) : py_ltb a b = true <-> py_lt a b = Some true.
Proof.
  unfold py_ltb. destruct (py_lt a b) as [[|] |]; split; congruence.
Qed.

Lemma insert_ascending (x : json) (l : list json) :
  ascending l ->
  Forall (fun y => comparable x y = true) l ->
  Forall (fun y => py_eqb x y = false) l ->
  ascending (insert x l).
Proof.
  unfold ascending.
  induction l as [| y l IH]; simpl; intros Hs Hc Hn.
  - repeat constructor.
  - inversion Hs as [| ? ? Hs' Hy]; subst.
    inversion Hc as [| ? ? Hcy Hc']; subst.
    inversion Hn as [| ? ? Hny Hn']; subst.
    destruct (py_ltb y x) eqn:E.
    + constructor; [now apply IH |].
      rewrite (insert_Permutation x l). constructor; [now apply py_ltb_lt | exact Hy].
    + assert (Hxy : py_ltb x y = true).
      { apply py_ltb_total; [now rewrite comparable_sym | now rewrite py_eqb_sym | exact E]. }
      constructor; [exact Hs |].
      constructor; [now apply py_ltb_lt |].
      rewrite Forall_forall in *. intros z Hz.
      apply py_ltb_lt. apply py_ltb_trans with y; [exact Hxy |].
      apply py_ltb_lt. now apply Hy.
Qed.

Lemma insertion_sort_ascending (pivot : json) (l : list json) :
  distinct l ->
  Forall (fun y => comparable pivot y = true) l ->
  ascending (insertion_sort l).
Proof.
  induction l as [| x l IH]; simpl; intros Hd Hc.
  - constructor.
  - destruct Hd as [Hx Hd]. inversion Hc as [| ? ? Hcx Hc']; subst.
    apply insert_ascending.
    + now apply IH.
    + rewrite (insertion_sort_Permutation l).
      rewrite Forall_forall in *. intros y Hy.
      rewrite (comparable_trans pivot x y Hcx). now apply Hc'.
    + rewrite (insertion_sort_Permutation l). now apply set_mem_false.
Qed.

Lemma ascending_NoDup (l : list json) : ascending l -> NoDup l.
Proof.
  unfold ascending. induction 1 as [| x l Hs IH Hx]; constructor; [| exact IH].
  intros Hin. rewrite Forall_forall in Hx.
  specialize (Hx x Hin). apply py_ltb_lt in Hx.
  now rewrite py_ltb_irrefl in Hx.
Qed.

(** A set of values has one ascending enumeration. *)
Lemma ascending_unique (l1 l2 : list json) :
  ascending l1 -> ascending l2 -> Permutation l1 l2 -> l1 = l2.
Proof.
  unfold ascending. intros H1. revert l2.
  induction H1 as [| x l1 Hs1 IH Hx]; intros l2 H2 HP.
  - now apply Permutation_nil in HP.
  - destruct H2 as [| y l2 Hs2 Hy].
    + apply Permutation_sym, Permutation_nil in HP. discriminate.
    + assert (Exy : x = y).
      { assert (Hxin : In x (y :: l2)) by (rewrite <- HP; now left).
        assert (Hyin : In y (x :: l1)) by (rewrite HP; now left).
        destruct Hxin as [-> | Hxin]; [reflexivity |].
        destruct Hyin as [-> | Hyin]; [reflexivity |].
        rewrite Forall_forall in Hx, Hy.
        specialize (Hx y Hyin). specialize (Hy x Hxin).
        apply py_ltb_lt in Hx, Hy.
        now rewrite (py_ltb_asym x y Hx) in Hy. }
      subst y. f_equal. apply IH; [exact Hs2 |].
      now apply Permutation_cons_inv with x.
Qed.

Lemma sorted_Ok (l l' : list json) :
  distinct l -> sorted l = Ok l' -> ascending l' /\ Permutation l' l.
Proof.
  intros Hd. unfold sorted.
  destruct l as [| x [| y l]].
  - intros [= <-]. split; [constructor | reflexivity].
  - intros [= <-]. split; [repeat constructor | reflexivity].
  - destruct (forallb (comparable x) (x :: y :: l)) eqn:E; [| discriminate].
    intros [= <-]. split; [| apply (insertion_sort_Permutation (x :: y :: l))].
    apply (insertion_sort_ascending x (x :: y :: l) Hd).
    rewrite forallb_forall in E. now apply Forall_forall.
Qed.

Lemma forallb_comparable_Permutation (x y : json) (l l' : list json) :
  Permutation l l' -> In y l ->
  forallb (comparable x) l = true -> forallb (comparable y) l' = true.
Proof.
  intros HP Hy H. rewrite forallb_forall in *. intros z Hz.
  rewrite (comparable_trans x y z (H y Hy)).
  apply H. now rewrite HP.
Qed.

(** The order in which a set is handed to [sorted] does not show in the
    outcome. *)
Lemma sorted_Permutation (l l' : list json) :
  distinct l -> Permutation l l' -> sorted l = sorted l'.
Proof.
  intros Hd HP.
  assert (Hd' : distinct l') by now apply distinct_Permutation with l.
  assert (Hlen := Permutation_length HP).
  destruct l as [| x [| x2 l]].
  - now apply Permutation_nil in HP as ->.
  - now apply Permutation_length_1_inv in HP as ->.
  - destruct l' as [| y [| y2 l']]; try discriminate.
    set (k := x :: x2 :: l) in *. set (k' := y :: y2 :: l') in *.
    assert (Hx : In x k') by (rewrite <- HP; now left).
    assert (Hy : In y k) by (rewrite HP; now left).
    change (sorted k) with
      (if forallb (comparable x) k then Ok (insertion_sort k) else Raise TypeError).
    change (sorted k') with
      (if forallb (comparable y) k' then Ok (insertion_sort k') else Raise TypeError).
    destruct (forallb (comparable x) k) eqn:E.
    + rewrite (forallb_comparable_Permutation x y k k' HP Hy E).
      f_equal. apply ascending_unique.
      * apply insertion_sort_ascending with x; [exact Hd |].
        rewrite forallb_forall in E. now apply Forall_forall.
      * apply insertion_sort_ascending with x; [exact Hd' |].
        rewrite forallb_forall in E. apply Forall_forall.
        intros z Hz. apply E. now rewrite HP.
      * now rewrite !insertion_sort_Permutation.
    + destruct (forallb (comparable y) k') eqn:E'; [| reflexivity].
      rewrite (forallb_comparable_Permutation y x k' k (Permutation_sym HP) Hx E') in E.
      discriminate.
Qed.

(** ** The stages of an analysis *)

Lemma extract_usernames_distinct (b : zip_bytes) (followers following : list json) :
  extract_usernames_from_zip b = Ok (followers, following) ->
  distinct followers /\ distinct following.
Proof.
  unfold extract_usernames_from_zip. intros H.
  repeat (apply bind_Ok in H as (? & _ & H)).
  injection H as <- <-. split; apply distinct_py_set.
Qed.

(** What a successful analysis went through. *)
Lemma analyze_Ok (list_of_set : list json -> list json)
    (new_zip : zip_bytes) (old_zip : option zip_bytes) (r : analysis) :
  analyze_zip_files list_of_set new_zip old_zip = Ok r ->
  exists new_followers new_following,
    checks "new_zip" new_zip = Ok tt /\
    extract_usernames_from_zip new_zip = Ok (new_followers, new_following) /\
    extract_recently_unfollowed new_zip = Ok (recently_unfollowed r) /\
    extract_blocked_users new_zip = Ok (blocked_users r) /\
    extract_pending_requests new_zip = Ok (pending_requests r) /\
    match old_zip with
    | None => unfollowers r = []
    | Some old_bytes =>
        checks "old_zip" old_bytes = Ok tt /\
        exists old_followers old_following,
          extract_usernames_from_zip old_bytes = Ok (old_followers, old_following) /\
          sorted (list_of_set (set_difference old_followers new_followers))
          = Ok (unfollowers r)
    end /\
    sorted (list_of_set (set_difference new_following new_followers))
    = Ok (not_following_back r).
Proof.
  unfold analyze_zip_files. intros H.
  apply bind_Ok in H as ([] & Hc & H).
  apply bind_Ok in H as ([nf ng] & He & H).
  apply bind_Ok in H as (ru & Hru & H).
  apply bind_Ok in H as (bu & Hbu & H).
  apply bind_Ok in H as (pr & Hpr & H).
  apply bind_Ok in H as (u & Hu & H).
  apply bind_Ok in H as (n & Hn & H).
  injection H as <-. simpl.
  exists nf, ng. repeat split; try assumption.
  destruct old_zip as [old_bytes |].
  - apply bind_Ok in Hu as ([] & Hco & Hu).
    apply bind_Ok in Hu as ([f g] & Heo & Hu).
    split; [exact Hco |]. now exists f, g.
  - now injection Hu as <-.
Qed.

Lemma In_set_difference (v : json) (a b : list json) :
  In v (set_difference a b) <-> In v a /\ set_mem v b = false.
Proof.
  unfold set_difference. rewrite filter_In.
  now rewrite negb_true_iff.
Qed.

(** [sorted(list(a - b))] for a set [a], whatever the iteration order. *)
Lemma sorted_difference (list_of_set : list json -> list json)
    (a b out : list json) :
  iteration_order list_of_set -> distinct a ->
  sorted (list_of_set (set_difference a b)) = Ok out ->
  sorted (set_difference a b) = Ok out /\
  ascending out /\ NoDup out /\
  (forall v, In v out <-> In v a /\ set_mem v b = false).
Proof.
  intros Horder Ha H.
  assert (Hd : distinct (set_difference a b)) by now apply distinct_set_difference.
  assert (HP := Horder (set_difference a b)).
  rewrite <- (sorted_Permutation _ _ Hd (Permutation_sym HP)) in H.
  destruct (sorted_Ok _ _ Hd H) as [Hasc Hperm].
  split; [exact H |]. split; [exact Hasc |].
  split; [now apply ascending_NoDup |].
  intros v. now rewrite Hperm, In_set_difference.
Qed.

(** ** The diff outputs *)

(** On names, ascending is the lexicographic order of the strings. *)
Lemma ascending_strings (names : list string) :
  ascending (map JStr names) <->
  StronglySorted (fun s t => String.ltb s t = true) names.
Proof.
  unfold ascending. induction names as [| s names IH]; simpl.
  - split; constructor.
  - split; intros H; inversion H as [| ? ? Hs Hall]; subst;
      (constructor; [now apply IH |]).
    + rewrite Forall_map in Hall. eapply Forall_impl; [| exact Hall].
      simpl. now intros t [= ->].
    + rewrite Forall_map. eapply Forall_impl; [| exact Hall].
      simpl. now intros t ->.
Qed.

(** The two scenarios of the specification: followers a, b, c and
    following a, d without old export; then old followers a, b, c against
    new followers a, c. *)
Example scenario_without_old :
  analyze_zip_files (fun s => s) (export ["a"; "b"; "c"] ["a"; "d"]) None
  = Ok {| unfollowers := [];
          not_following_back := [JStr "d"];
          recently_unfollowed := [];
          blocked_users := [];
          pending_requests := [] |}.
Proof.
  reflexivity.
Qed.

Example scenario_with_old :
  analyze_zip_files (fun s => s) (export ["a"; "c"] ["a"])
    (Some (export ["a"; "b"; "c"] []))
  = Ok {| unfollowers := [JStr "b"];
          not_following_back := [];
          recently_unfollowed := [];
          blocked_users := [];
          pending_requests := [] |}.
Proof.
  reflexivity.
Qed.

(** C1.  In every analysis that returns, [not_following_back] is
    [sorted(new_following - new_followers)], and [unfollowers] is
    [sorted(old_followers - new_followers)] when an old archive was
    uploaded and the empty list otherwise.  Both lists are strictly
    ascending and without repetition, and they hold exactly the elements
    of the first set that have no equal in the second, whatever values
    the documents repeat and whatever order the sets are iterated in. *)
Theorem diff_outputs_are_sorted_differences
    (list_of_set : list json -> list json)
    (new_zip : zip_bytes) (old_zip : option zip_bytes) (r : analysis) :
  iteration_order list_of_set ->
  analyze_zip_files list_of_set new_zip old_zip = Ok r ->
  exists new_followers new_following,
    extract_usernames_from_zip new_zip = Ok (new_followers, new_following) /\
    is_sorted_difference new_following new_followers (not_following_back r) /\
    match old_zip with
    | None => unfollowers r = []
    | Some old_bytes =>
        exists old_followers old_following,
          extract_usernames_from_zip old_bytes = Ok (old_followers, old_following) /\
          is_sorted_difference old_followers new_followers (unfollowers r)
    end.
Proof.
  intros Horder H.
  apply analyze_Ok in H
    as (nf & ng & _ & He & _ & _ & _ & Hold & Hnfb).
  exists nf, ng. split; [exact He |].
  destruct (extract_usernames_distinct _ _ _ He) as [_ Hng].
  split; [now apply sorted_difference with list_of_set |].
  destruct old_zip as [old_bytes |]; [| exact Hold].
  destruct Hold as (_ & f & g & Heo & Hu).
  exists f, g. split; [exact Heo |].
  destruct (extract_usernames_distinct _ _ _ Heo) as [Hf _].
  now apply sorted_difference with list_of_set.
Qed.

Lemma diff_outputs_are_sorted_differences_witness :
  iteration_order (@rev json) /\
  analyze_zip_files (@rev json) repeating_new (Some repeating_old)
  = Ok repeating_result /\
  exists new_followers new_following,
    extract_usernames_from_zip repeating_new = Ok (new_followers, new_following) /\
    is_sorted_difference new_following new_followers
      (not_following_back repeating_result) /\
    exists old_followers old_following,
      extract_usernames_from_zip repeating_old = Ok (old_followers, old_following) /\
      is_sorted_difference old_followers new_followers
        (unfollowers repeating_result).
Proof.
  assert (Horder : iteration_order (@rev json)).
  { intros s. apply Permutation_sym, Permutation_rev. }
  assert (Hrun : analyze_zip_files (@rev json) repeating_new (Some repeating_old)
                 = Ok repeating_result) by reflexivity.
  split; [exact Horder |]. split; [exact Hrun |].
  exact (diff_outputs_are_sorted_differences (@rev json)
           repeating_new (Some repeating_old) repeating_result Horder Hrun).
Defined.

(** ** Determinism *)

Lemma sorted_iteration_order (list_of_set : list json -> list json) (s : list json) :
  iteration_order list_of_set -> distinct s -> sorted (list_of_set s) = sorted s.
Proof.
  intros Horder Hs. symmetry.
  apply sorted_Permutation; [exact Hs |].
  apply Permutation_sym, Horder.
Qed.

(** C8.  The handler reads nothing but its two uploads and the order in
    which the interpreter iterates sets, and that order does not show in
    what it returns: two runs on the same uploads return the same record,
    or raise the same exception, and are answered by the same response. *)
Theorem analysis_is_deterministic
    (first_run second_run : list json -> list json)
    (new_zip : zip_bytes) (old_zip : option zip_bytes) :
  iteration_order first_run -> iteration_order second_run ->
  analyze_zip_files first_run new_zip old_zip
  = analyze_zip_files second_run new_zip old_zip /\
  validate_origin_middleware (analyze_zip_files first_run new_zip old_zip)
  = validate_origin_middleware (analyze_zip_files second_run new_zip old_zip).
Proof.
  intros H1 H2.
  assert (E : analyze_zip_files first_run new_zip old_zip
              = analyze_zip_files second_run new_zip old_zip).
  { unfold analyze_zip_files.
    destruct (checks "new_zip" new_zip) as [[] | e]; simpl; [| reflexivity].
    destruct (extract_usernames_from_zip new_zip) as [[nf ng] | e] eqn:He;
      simpl; [| reflexivity].
    destruct (extract_usernames_distinct _ _ _ He) as [_ Hng].
    rewrite (sorted_iteration_order first_run), (sorted_iteration_order second_run)
      by (assumption || now apply distinct_set_difference).
    destruct (extract_recently_unfollowed new_zip); simpl; [| reflexivity].
    destruct (extract_blocked_users new_zip); simpl; [| reflexivity].
    destruct (extract_pending_requests new_zip); simpl; [| reflexivity].
    destruct old_zip as [old_bytes |]; [| reflexivity].
    destruct (checks "old_zip" old_bytes) as [[] | e]; simpl; [| reflexivity].
    destruct (extract_usernames_from_zip old_bytes) as [[f g] | e] eqn:Heo;
      simpl; [| reflexivity].
    destruct (extract_usernames_distinct _ _ _ Heo) as [Hf _].
    now rewrite (sorted_iteration_order first_run), (sorted_iteration_order second_run)
      by (assumption || now apply distinct_set_difference). }
  split; [exact E | now rewrite E].
Qed.

Lemma analysis_is_deterministic_witness :
  iteration_order (@rev json) /\
  iteration_order (fun s : list json => s) /\
  analyze_zip_files (@rev json) repeating_new (Some repeating_old)
  = analyze_zip_files (fun s => s) repeating_new (Some repeating_old) /\
  validate_origin_middleware
    (analyze_zip_files (@rev json) repeating_new (Some repeating_old))
  = validate_origin_middleware
      (analyze_zip_files (fun s => s) repeating_new (Some repeating_old)).
Proof.
  assert (Hrev : iteration_order (@rev json)).
  { intros s. apply Permutation_sym, Permutation_rev. }
  assert (Hid : iteration_order (fun s : list json => s)).
  { intros s. apply Permutation_refl. }
  split; [exact Hrev |]. split; [exact Hid |].
  exact (analysis_is_deterministic (@rev json) (fun s => s)
           repeating_new (Some repeating_old) Hrev Hid).
Defined.

(** ** The size guard *)

Lemma fold_left_add (sizes : list N) (start : N) :
  fold_left N.add sizes start = (start + fold_right N.add 0 sizes)%N.
Proof.
  revert start. induction sizes as [| size sizes IH]; intros start; simpl.
  - now rewrite N.add_0_r.
  - rewrite IH. lia.
Qed.

(** What the guard adds up is the declared size of every member. *)
Lemma sum_declared_total (members : list ZipInfo) :
  sum (map file_size members) = declared_total members.
Proof.
  unfold sum. rewrite fold_left_add, N.add_0_l.
  induction members as [| info members IH]; simpl; [reflexivity |].
  now rewrite IH.
Qed.

(** C7.  The size guard adds up the size every member declares and
    compares the total with 50 MiB, the ceiling included: the guard
    passes exactly when the declared sizes, added member by member, do
    not exceed 52428800 bytes; archives that declare the same sizes fare
    the same whatever their members hold; a declared total of exactly
    52428800 bytes passes, and one of 52428801 bytes fails, the analysis
    of such an upload raising the 400 error of the size check. *)
Theorem size_guard_counts_declared_sizes
    (list_of_set : list json -> list json)
    (members : list ZipInfo) (old_zip : option zip_bytes) :
  is_zip_safe (ZipArchive members)
  = Ok (declared_total members <=? 52428800)%N /\
  (forall info,
      is_zip_safe (ZipArchive (info :: members))
      = Ok (file_size info + declared_total members <=? 52428800)%N) /\
  (forall members',
      map file_size members' = map file_size members ->
      is_zip_safe (ZipArchive members') = is_zip_safe (ZipArchive members)) /\
  (declared_total members = 52428800%N ->
   is_zip_safe (ZipArchive members) = Ok true) /\
  (declared_total members = 52428801%N ->
   is_zip_safe (ZipArchive members) = Ok false /\
   (forall role,
       checks role (ZipArchive members)
       = Raise (HTTPException 400 (oversize_detail role))) /\
   analyze_zip_files list_of_set (ZipArchive members) old_zip
   = Raise (HTTPException 400 "new_zip 압축 해제 용량 초과")).
Proof.
  assert (Hguard : forall archive,
             is_zip_safe (ZipArchive archive)
             = Ok (declared_total archive <=? 52428800)%N).
  { intros archive. unfold is_zip_safe, infolist, ZipFile, bind.
    now rewrite sum_declared_total. }
  split; [apply Hguard |]. split; [intros info; apply (Hguard (info :: members)) |].
  split; [| split].
  - intros members' E. unfold is_zip_safe, infolist, ZipFile, bind. now rewrite E.
  - intros E. now rewrite Hguard, E.
  - intros E.
    assert (Hsafe : is_zip_safe (ZipArchive members) = Ok false)
      by now rewrite Hguard, E.
    split; [exact Hsafe |].
    assert (Hchecks : forall role,
               checks role (ZipArchive members)
               = Raise (HTTPException 400 (oversize_detail role))).
    { intros role. unfold checks. now rewrite Hsafe. }
    split; [exact Hchecks |].
    unfold analyze_zip_files. now rewrite Hchecks.
Qed.

(** The boundary on archives of one, two and three members. *)
Example size_guard_at_the_ceiling :
  is_zip_safe (ZipArchive [member "a.json" 52428800 JNull]) = Ok true /\
  is_zip_safe (ZipArchive [member "a.json" 52428801 JNull]) = Ok false /\
  is_zip_safe (ZipArchive [member "a.json" 1 JNull; member "b.json" 52428799 JNull])
  = Ok true /\
  is_zip_safe (ZipArchive [member "a.json" 1 JNull; member "b.json" 52428800 JNull])
  = Ok false /\
  is_zip_safe (ZipArchive [member "a.json" 52428800 JNull; member "b.json" 1 JNull])
  = Ok false /\
  is_zip_safe
    (ZipArchive [member "a.json" 20000000 JNull; member "b.json" 20000000 JNull;
                 member "c.json" 12428801 JNull])
  = Ok false /\
  analyze_zip_files (fun s => s)
    (ZipArchive [member followers_name 1 (followers_document []);
                 member following_name 52428800 (following_document [])]) None
  = Raise (HTTPException 400 "new_zip 압축 해제 용량 초과").
Proof.
  repeat split; reflexivity.
Qed.

(** ** The order of the stages *)

(** C3 as stated fails on a new export whose followers document does not
    parse and an old one over the size ceiling: the handler raises the
    parse error of the new archive, the specified sequence the size error
    of the old one. *)
Lemma specified_order_counterexample :
  analyze_zip_files (fun s => s) unparsable_new (Some oversize_old)
  = Raise JSONDecodeError /\
  specified_sequence (fun s => s) unparsable_new (Some oversize_old)
  = Raise (HTTPException 400 "old_zip 압축 해제 용량 초과") /\
  analyze_zip_files (fun s => s) unparsable_new (Some oversize_old)
  <> specified_sequence (fun s => s) unparsable_new (Some oversize_old).
Proof.
  repeat split; try reflexivity. discriminate.
Qed.

(** C3 (amended).  The handler runs validate(new), extractSnapshot(new)
    with its optional extractions, validate(old), the followers
    extraction from old, then diff: it returns what that sequence
    returns, the first exception raised in it or the whole record.  A
    failure of the new archive's checks is returned whatever the old
    archive is, and so is a failure of its extraction: the old archive is
    checked only once the new one has been read.  The specified sequence
    returns a record exactly when the handler does, and the same one. *)
Theorem handler_runs_stages_in_its_own_order
    (list_of_set : list json -> list json)
    (new_zip : zip_bytes) (old_zip : option zip_bytes) :
  analyze_zip_files list_of_set new_zip old_zip
  = handler_sequence list_of_set new_zip old_zip /\
  (forall e, validate "new_zip" new_zip = Raise e ->
             analyze_zip_files list_of_set new_zip old_zip = Raise e) /\
  (forall e, validate "new_zip" new_zip = Ok tt ->
             extractSnapshot new_zip = Raise e ->
             analyze_zip_files list_of_set new_zip old_zip = Raise e) /\
  (forall r, specified_sequence list_of_set new_zip old_zip = Ok r <->
             analyze_zip_files list_of_set new_zip old_zip = Ok r).
Proof.
  assert (E : analyze_zip_files list_of_set new_zip old_zip
              = handler_sequence list_of_set new_zip old_zip).
  { unfold analyze_zip_files, handler_sequence, validate, extractSnapshot,
      extractFollowers, diff.
    destruct (checks "new_zip" new_zip) as [[] | e]; simpl; [| reflexivity].
    destruct (extract_usernames_from_zip new_zip) as [[nf ng] | e];
      simpl; [| reflexivity].
    destruct (extract_recently_unfollowed new_zip); simpl; [| reflexivity].
    destruct (extract_blocked_users new_zip); simpl; [| reflexivity].
    destruct (extract_pending_requests new_zip); simpl; [| reflexivity].
    destruct old_zip as [old_bytes |]; [| reflexivity].
    destruct (checks "old_zip" old_bytes) as [[] | e]; simpl; [| reflexivity].
    destruct (extract_usernames_from_zip old_bytes) as [[f g] | e];
      simpl; reflexivity. }
  split; [exact E |]. rewrite E.
  unfold handler_sequence, specified_sequence.
  split; [| split].
  - intros e ->. reflexivity.
  - intros e -> ->. reflexivity.
  - intros r.
    destruct (validate "new_zip" new_zip) as [[] | e]; simpl; [| tauto].
    destruct old_zip as [old_bytes |]; [| tauto].
    destruct (validate "old_zip" old_bytes) as [[] | e]; simpl.
    + tauto.
    + destruct (extractSnapshot new_zip); simpl; split; discriminate.
Qed.

(** ** Failures *)

Lemma checks_cases (role : string) (members : list ZipInfo) :
  checks role (ZipArchive members) = Ok tt \/
  exists detail, checks role (ZipArchive members) = Raise (HTTPException 400 detail).
Proof.
  unfold checks, is_zip_safe, has_too_many_files, has_dangerous_files. simpl.
  destruct (_ <=? _)%N; simpl; [| eauto].
  destruct (Nat.ltb _ _); simpl; [eauto |].
  destruct (existsb _ _); simpl; eauto.
Qed.

(** C4 as stated fails on a buffer that is not a zip container: the
    handler raises [BadZipFile] and the response is the generic 500. *)
Lemma unreadable_archive_counterexample :
  analyze_zip_files (fun s => s) NotAZip None = Raise BadZipFile /\
  validate_origin_middleware (analyze_zip_files (fun s => s) NotAZip None)
  = {| status_code := 500; content := Detail "Internal server error" |} /\
  client_error
    (validate_origin_middleware (analyze_zip_files (fun s => s) NotAZip None))
  = false.
Proof.
  repeat split; reflexivity.
Qed.

(** C4 (amended).  A buffer that is not a zip container makes the handler
    raise [zipfile]'s [BadZipFile], which it turns into no client error:
    the middleware answers with the generic status 500.  This holds for
    the new upload whatever the old one is, and for the old upload once
    the new one has been analysed. *)
Theorem unreadable_archive_raises_BadZipFile
    (list_of_set : list json -> list json)
    (new_zip : zip_bytes) (old_zip : option zip_bytes) (r : analysis) :
  analyze_zip_files list_of_set new_zip None = Ok r ->
  analyze_zip_files list_of_set NotAZip old_zip = Raise BadZipFile /\
  analyze_zip_files list_of_set new_zip (Some NotAZip) = Raise BadZipFile /\
  validate_origin_middleware (Raise BadZipFile)
  = {| status_code := 500; content := Detail "Internal server error" |}.
Proof.
  intros H. split; [reflexivity |]. split; [| reflexivity].
  apply analyze_Ok in H as (nf & ng & Hc & He & Hru & Hbu & Hpr & _ & _).
  unfold analyze_zip_files. now rewrite Hc, He, Hru, Hbu, Hpr.
Qed.

Lemma unreadable_archive_raises_BadZipFile_witness :
  analyze_zip_files (fun s => s) repeating_new None
  = Ok {| unfollowers := [];
          not_following_back := [JStr "d"; JStr "e"];
          recently_unfollowed := [];
          blocked_users := [];
          pending_requests := [] |} /\
  analyze_zip_files (fun s => s) NotAZip (Some repeating_old) = Raise BadZipFile /\
  analyze_zip_files (fun s => s) repeating_new (Some NotAZip) = Raise BadZipFile /\
  validate_origin_middleware (Raise BadZipFile)
  = {| status_code := 500; content := Detail "Internal server error" |}.
Proof.
  assert (Hrun : analyze_zip_files (fun s => s) repeating_new None
                 = Ok {| unfollowers := [];
                         not_following_back := [JStr "d"; JStr "e"];
                         recently_unfollowed := [];
                         blocked_users := [];
                         pending_requests := [] |}) by reflexivity.
  split; [exact Hrun |].
  exact (unreadable_archive_raises_BadZipFile (fun s => s) repeating_new
           (Some repeating_old) _ Hrun).
Defined.

(** C5 as stated fails on a complete export whose blocked-profiles
    document is not JSON text: extractor and analysis raise
    [JSONDecodeError]. *)
Lemma malformed_optional_counterexample :
  extract_blocked_users (ZipArchive unparsable_blocked) = Raise JSONDecodeError /\
  analyze_zip_files (fun s => s) (ZipArchive unparsable_blocked) None
  = Raise JSONDecodeError /\
  status_code (validate_origin_middleware
                 (analyze_zip_files (fun s => s) (ZipArchive unparsable_blocked) None))
  = 500.
Proof.
  repeat split; reflexivity.
Qed.

Lemma unparsable_raises (members : list ZipInfo) (path : string)
    (k : json -> result (list json)) :
  unparsable_at members path ->
  except_KeyError (f <- zip_open members path ;; data <- json_load f ;; k data) []
  = Raise JSONDecodeError.
Proof.
  intros (info & -> & Hp). unfold json_load. simpl. now rewrite Hp.
Qed.

(** C5 (amended).  An optional document that is present but is not JSON
    text makes its extractor raise [JSONDecodeError]: the extractors
    catch [KeyError] only, which is what a missing path raises.  The
    analysis of such an archive returns no record. *)
Theorem malformed_optional_document_raises
    (list_of_set : list json -> list json)
    (members : list ZipInfo) (old_zip : option zip_bytes) :
  unparsable_at members recently_unfollowed_path \/
  unparsable_at members blocked_path \/
  unparsable_at members pending_path ->
  (unparsable_at members recently_unfollowed_path ->
   extract_recently_unfollowed (ZipArchive members) = Raise JSONDecodeError) /\
  (unparsable_at members blocked_path ->
   extract_blocked_users (ZipArchive members) = Raise JSONDecodeError) /\
  (unparsable_at members pending_path ->
   extract_pending_requests (ZipArchive members) = Raise JSONDecodeError) /\
  exists e, analyze_zip_files list_of_set (ZipArchive members) old_zip = Raise e.
Proof.
  intros H.
  assert (H1 : unparsable_at members recently_unfollowed_path ->
               extract_recently_unfollowed (ZipArchive members) = Raise JSONDecodeError).
  { intros Hu. unfold extract_recently_unfollowed. simpl.
    now apply (unparsable_raises members recently_unfollowed_path). }
  assert (H2 : unparsable_at members blocked_path ->
               extract_blocked_users (ZipArchive members) = Raise JSONDecodeError).
  { intros Hu. unfold extract_blocked_users. simpl.
    now apply (unparsable_raises members blocked_path). }
  assert (H3 : unparsable_at members pending_path ->
               extract_pending_requests (ZipArchive members) = Raise JSONDecodeError).
  { intros Hu. unfold extract_pending_requests. simpl.
    now apply (unparsable_raises members pending_path). }
  repeat (split; [assumption |]).
  unfold analyze_zip_files.
  destruct (checks "new_zip" (ZipArchive members)) as [[] | e]; simpl; [| eauto].
  destruct (extract_usernames_from_zip (ZipArchive members)) as [[nf ng] | e];
    simpl; [| eauto].
  destruct H as [H | [H | H]].
  - rewrite (H1 H). simpl. eauto.
  - rewrite (H2 H).
    destruct (extract_recently_unfollowed (ZipArchive members)); simpl; eauto.
  - rewrite (H3 H).
    destruct (extract_recently_unfollowed (ZipArchive members)); simpl; [| eauto].
    destruct (extract_blocked_users (ZipArchive members)); simpl; eauto.
Qed.

Lemma malformed_optional_document_raises_witness :
  (unparsable_at unparsable_blocked recently_unfollowed_path \/
   unparsable_at unparsable_blocked blocked_path \/
   unparsable_at unparsable_blocked pending_path) /\
  (unparsable_at unparsable_blocked recently_unfollowed_path ->
   extract_recently_unfollowed (ZipArchive unparsable_blocked)
   = Raise JSONDecodeError) /\
  (unparsable_at unparsable_blocked blocked_path ->
   extract_blocked_users (ZipArchive unparsable_blocked) = Raise JSONDecodeError) /\
  (unparsable_at unparsable_blocked pending_path ->
   extract_pending_requests (ZipArchive unparsable_blocked) = Raise JSONDecodeError) /\
  exists e,
    analyze_zip_files (fun s => s) (ZipArchive unparsable_blocked) None = Raise e.
Proof.
  assert (H : unparsable_at unparsable_blocked recently_unfollowed_path \/
              unparsable_at unparsable_blocked blocked_path \/
              unparsable_at unparsable_blocked pending_path).
  { right. left.
    exists {| filename := blocked_path; file_size := 64; parsed := None |}.
    split; reflexivity. }
  split; [exact H |].
  exact (malformed_optional_document_raises (fun s => s) unparsable_blocked None H).
Defined.

(** ** Required documents *)

Lemma find_lacks (sub : string) (members : list ZipInfo) :
  lacks sub members -> find (contains sub) (namelist members) = None.
Proof.
  unfold lacks. induction 1 as [| n names Hn _ IH]; simpl; [reflexivity |].
  now rewrite Hn.
Qed.

(** C6 as stated fails: an export without followers document and one
    without following document raise the same error, which tells neither
    case from the other. *)
Lemma missing_document_counterexample :
  analyze_zip_files (fun s => s) only_following None
  = Raise (HTTPException 400 "followers_1.json 또는 following.json이 누락됨") /\
  analyze_zip_files (fun s => s) only_followers None
  = Raise (HTTPException 400 "followers_1.json 또는 following.json이 누락됨") /\
  analyze_zip_files (fun s => s) only_following None
  = analyze_zip_files (fun s => s) only_followers None.
Proof.
  repeat split; reflexivity.
Qed.

(** C6 (amended).  An archive none of whose member names contains
    [followers_1.json], or none of whose member names contains
    [following.json], makes the extraction raise one and the same 400
    error, whose detail names both documents.  The analysis of such a new
    archive fails with a 400 error: that one when the checks pass, the
    error of a check otherwise. *)
Theorem missing_required_document_is_one_error
    (list_of_set : list json -> list json)
    (members : list ZipInfo) (old_zip : option zip_bytes) :
  lacks "followers_1.json" members \/ lacks "following.json" members ->
  extract_usernames_from_zip (ZipArchive members)
  = Raise (HTTPException 400 missing_detail) /\
  (checks "new_zip" (ZipArchive members) = Ok tt ->
   analyze_zip_files list_of_set (ZipArchive members) old_zip
   = Raise (HTTPException 400 missing_detail)) /\
  (exists detail,
      analyze_zip_files list_of_set (ZipArchive members) old_zip
      = Raise (HTTPException 400 detail)) /\
  client_error
    (validate_origin_middleware
       (analyze_zip_files list_of_set (ZipArchive members) old_zip)) = true.
Proof.
  intros H.
  assert (He : extract_usernames_from_zip (ZipArchive members)
               = Raise (HTTPException 400 missing_detail)).
  { unfold extract_usernames_from_zip. simpl.
    destruct H as [H | H]; rewrite (find_lacks _ _ H); simpl.
    - reflexivity.
    - now rewrite orb_true_r. }
  assert (Hok : checks "new_zip" (ZipArchive members) = Ok tt ->
                analyze_zip_files list_of_set (ZipArchive members) old_zip
                = Raise (HTTPException 400 missing_detail)).
  { intros Hc. unfold analyze_zip_files. now rewrite Hc, He. }
  assert (Hex : exists detail,
             analyze_zip_files list_of_set (ZipArchive members) old_zip
             = Raise (HTTPException 400 detail)).
  { destruct (checks_cases "new_zip" members) as [Hc | [detail Hc]].
    - exists missing_detail. now apply Hok.
    - exists detail. unfold analyze_zip_files. now rewrite Hc. }
  repeat (split; [assumption |]).
  destruct Hex as [detail ->]. reflexivity.
Qed.

Lemma missing_required_document_is_one_error_witness :
  (lacks "followers_1.json" [member following_name 64 (following_document ["a"])] \/
   lacks "following.json" [member following_name 64 (following_document ["a"])]) /\
  extract_usernames_from_zip only_following
  = Raise (HTTPException 400 missing_detail) /\
  (checks "new_zip" only_following = Ok tt ->
   analyze_zip_files (fun s => s) only_following None
   = Raise (HTTPException 400 missing_detail)) /\
  (exists detail,
      analyze_zip_files (fun s => s) only_following None
      = Raise (HTTPException 400 detail)) /\
  client_error
    (validate_origin_middleware
       (analyze_zip_files (fun s => s) only_following None)) = true.
Proof.
  assert (H : lacks "followers_1.json"
                [member following_name 64 (following_document ["a"])] \/
              lacks "following.json"
                [member following_name 64 (following_document ["a"])]).
  { left. repeat constructor. }
  split; [exact H |].
  exact (missing_required_document_is_one_error (fun s => s)
           [member following_name 64 (following_document ["a"])] None H).
Defined.

(** ** Reading the two required documents *)

Lemma extract_usernames_read (members : list ZipInfo) (p q : string) :
  find (contains "followers_1.json") (namelist members) = Some p ->
  find (contains "following.json") (namelist members) = Some q ->
  extract_usernames_from_zip (ZipArchive members) = read_usernames members p q.
Proof.
  intros Hp Hq. unfold extract_usernames_from_zip, read_usernames. simpl.
  rewrite Hp, Hq. simpl.
  apply find_some in Hp as [_ Hp]. apply find_some in Hq as [_ Hq].
  destruct p; [discriminate |]. destruct q; [discriminate |]. reflexivity.
Qed.

(** ** The old archive *)


(** An old export with unparsable optional documents counts as the same
    export with well-formed ones. *)
Example garbled_optional_documents_of_old :
  analyze_zip_files (fun s => s) repeating_new (Some (ZipArchive old_garbled))
  = analyze_zip_files (fun s => s) repeating_new (Some (ZipArchive old_plain)) /\
  analyze_zip_files (fun s => s) repeating_new (Some (ZipArchive old_garbled))
  = Ok {| unfollowers := [JStr "b"; JStr "z"];
          not_following_back := [JStr "d"; JStr "e"];
          recently_unfollowed := [];
          blocked_users := [];
          pending_requests := [] |}.
Proof.
  split; reflexivity.
Qed.

(** ** Several matching names *)

Lemma find_first_match (sub : string) (names : list string) (p : string) :
  first_match sub names p -> find (contains sub) names = Some p.
Proof.
  intros (pre & post & -> & Hp & Hpre).
  induction Hpre as [| n pre Hn _ IH]; simpl.
  - now rewrite Hp.
  - now rewrite Hn.
Qed.

(** The second pair of matching members may hold anything. *)
Example doubled_names :
  extract_usernames_from_zip (ZipArchive doubled)
  = Ok ([JStr "x"; JStr "y"], [JStr "x"; JStr "w"]) /\
  extract_usernames_from_zip (ZipArchive doubled_otherwise)
  = extract_usernames_from_zip (ZipArchive doubled).
Proof.
  split; reflexivity.
Qed.

(** ** An analysis that returns *)

(** The converse of [analyze_Ok]: an analysis all of whose stages return
    returns their record. *)
Lemma analyze_returns (list_of_set : list json -> list json)
    (new_zip : zip_bytes) (old_zip : option zip_bytes)
    (new_followers new_following recently blocked pending gone not_back : list json) :
  checks "new_zip" new_zip = Ok tt ->
  extract_usernames_from_zip new_zip = Ok (new_followers, new_following) ->
  extract_recently_unfollowed new_zip = Ok recently ->
  extract_blocked_users new_zip = Ok blocked ->
  extract_pending_requests new_zip = Ok pending ->
  match old_zip with
  | None => gone = []
  | Some old_bytes =>
      checks "old_zip" old_bytes = Ok tt /\
      exists old_followers old_following,
        extract_usernames_from_zip old_bytes = Ok (old_followers, old_following) /\
        sorted (list_of_set (set_difference old_followers new_followers)) = Ok gone
  end ->
  sorted (list_of_set (set_difference new_following new_followers)) = Ok not_back ->
  analyze_zip_files list_of_set new_zip old_zip
  = Ok {| unfollowers := gone;
          not_following_back := not_back;
          recently_unfollowed := recently;
          blocked_users := blocked;
          pending_requests := pending |}.
Proof.
  intros Hc He Hru Hbu Hpr Hold Hn. unfold analyze_zip_files.
  rewrite Hc, He, Hru, Hbu, Hpr. simpl.
  destruct old_zip as [old_bytes |].
  - destruct Hold as (Hco & f & g & Heo & Hu).
    rewrite Hco, Heo. simpl. now rewrite Hu, Hn.
  - subst gone. simpl. now rewrite Hn.
Qed.

(** * Further properties of the guards *)

Lemma endswith_refl (s : string) : endswith s s = true.
Proof.
  destruct s; simpl; [reflexivity |]. now rewrite Ascii.eqb_refl, String.eqb_refl.
Qed.

Lemma endswith_app (s t : string) : endswith (s ++ t)%string t = true.
Proof.
  induction s as [| c s IH]; simpl.
  - apply endswith_refl.
  - rewrite IH. apply orb_true_r.
Qed.

Lemma lower_app (s t : string) : lower (s ++ t)%string = (lower s ++ lower t)%string.
Proof.
  induction s as [| c s IH]; simpl; [reflexivity |]. now rewrite IH.
Qed.

Lemma endswith_last_char (s t : string) :
  endswith s t = true -> t <> "" -> last_char s = last_char t.
Proof.
  intros H Ht. induction s as [| c s IH].
  - simpl in H. rewrite orb_false_r in H. destruct t; [contradiction | discriminate].
  - change (endswith (String c s) t)
      with (String.eqb (String c s) t || endswith s t) in H.
    apply orb_true_iff in H as [H | H].
    + apply String.eqb_eq in H. now subst t.
    + rewrite <- (IH H). destruct s; [| reflexivity].
      simpl in H. rewrite orb_false_r in H. destruct t; [contradiction | discriminate].
Qed.

Lemma last_char_lower (s : string) :
  last_char (lower s) = option_map lower_ascii (last_char s).
Proof.
  induction s as [| c s IH]; simpl; [reflexivity |].
  destruct s; [reflexivity | exact IH].
Qed.

(** A name that ends in [.json], in any letter case, is not a dangerous
    one. *)
Lemma json_name_is_harmless (name : string) :
  endswith (lower name) ".json" = true ->
  existsb (endswith (lower name)) DANGEROUS_EXTENSIONS = false.
Proof.
  intros H.
  assert (Hl : last_char (lower name) = Some "n"%char).
  { now rewrite (endswith_last_char (lower name) ".json" H) by discriminate. }
  assert (Hno : forall ext c, last_char ext = Some c -> c <> "n"%char -> ext <> "" ->
                              endswith (lower name) ext = false).
  { intros ext c Hc Hne Hext. destruct (endswith (lower name) ext) eqn:E; [| reflexivity].
    apply endswith_last_char in E; [| exact Hext]. congruence. }
  unfold DANGEROUS_EXTENSIONS. simpl.
  rewrite (Hno ".exe" "e"%char), (Hno ".bat" "t"%char),
    (Hno ".py" "y"%char), (Hno ".sh" "h"%char); (reflexivity || discriminate).
Qed.

(** ** Where an [HTTPException] can come from *)

Lemma no_http_Ok {A : Type} (a : A) : no_http (Ok a).
Proof.
  intros s d. discriminate.
Qed.

Lemma no_http_bind {A B : Type} (c : result A) (k : A -> result B) :
  no_http c -> (forall a, no_http (k a)) -> no_http (bind c k).
Proof.
  intros Hc Hk s d. destruct c as [a | e]; simpl.
  - apply Hk.
  - intros [= ->]. now apply (Hc s d).
Qed.

Lemma no_http_except {A : Type} (c : result A) (default : A) :
  no_http c -> no_http (except_KeyError c default).
Proof.
  intros Hc s d. destruct c as [a | []]; simpl; try discriminate.
  apply Hc.
Qed.

Lemma no_http_mapM {A B : Type} (f : A -> result B) (l : list A) :
  (forall a, no_http (f a)) -> no_http (mapM f l).
Proof.
  intros Hf. induction l as [| a l IH]; simpl.
  - apply no_http_Ok.
  - apply no_http_bind; [apply Hf |]. intros b.
    apply no_http_bind; [exact IH |]. intros bs. apply no_http_Ok.
Qed.

Lemma no_http_flat_mapM {A B : Type} (f : A -> result (list B)) (l : list A) :
  (forall a, no_http (f a)) -> no_http (flat_mapM f l).
Proof.
  intros Hf. induction l as [| a l IH]; simpl.
  - apply no_http_Ok.
  - apply no_http_bind; [apply Hf |]. intros b.
    apply no_http_bind; [exact IH |]. intros bs. apply no_http_Ok.
Qed.

Lemma no_http_py_get (v : json) (key : string) (default : json) :
  no_http (py_get v key default).
Proof.
  intros s d. destruct v; simpl; try discriminate.
  destruct (dict_lookup key members); discriminate.
Qed.

Lemma no_http_py_getitem (v : json) (key : string) : no_http (py_getitem v key).
Proof.
  intros s d. destruct v; simpl; try discriminate.
  destruct (dict_lookup key members); discriminate.
Qed.

Lemma no_http_py_getitem0 (v : json) : no_http (py_getitem0 v).
Proof.
  intros s d. destruct v as [| | | [|] | [|] |]; discriminate.
Qed.

Lemma no_http_py_iter (v : json) : no_http (py_iter v).
Proof.
  intros s d. destruct v; discriminate.
Qed.

Lemma no_http_py_hash (v : json) : no_http (py_hash v).
Proof.
  intros s d. destruct v; discriminate.
Qed.

Lemma no_http_json_load (f : ZipInfo) : no_http (json_load f).
Proof.
  intros s d. unfold json_load. destruct (parsed f); discriminate.
Qed.

(** [z.open(name)] raises [KeyError] and nothing else. *)
Lemma zip_open_Raise (z : list ZipInfo) (name : string) (e : exn) :
  zip_open z name = Raise e -> e = KeyError.
Proof.
  induction z as [| info z IH]; simpl.
  - now intros [= <-].
  - destruct (zip_open z name); [discriminate |].
    destruct (String.eqb (filename info) name); [discriminate |].
    now intros [= <-].
Qed.

Lemma no_http_zip_open (z : list ZipInfo) (name : string) : no_http (zip_open z name).
Proof.
  intros s d H. apply zip_open_Raise in H. discriminate.
Qed.

Lemma no_http_ZipFile (b : zip_bytes) : no_http (ZipFile b).
Proof.
  intros s d. destruct b; discriminate.
Qed.

Lemma no_http_sorted (l : list json) : no_http (sorted l).
Proof.
  intros s d. unfold sorted. destruct l as [| x [| y l]]; try discriminate.
  destruct (forallb _ _); discriminate.
Qed.

Create HintDb no_http.

#[local] Hint Resolve no_http_Ok no_http_py_get no_http_py_getitem
  no_http_py_getitem0 no_http_py_iter no_http_py_hash no_http_json_load
  no_http_zip_open no_http_ZipFile no_http_sorted : no_http.

Ltac no_http_steps :=
  repeat first
    [ solve [auto with no_http]
    | apply no_http_except
    | apply no_http_mapM; intros ?
    | apply no_http_flat_mapM; intros ?
    | apply no_http_bind; [| intros ?] ].

Lemma no_http_first_value (entry : json) : no_http (first_value entry).
Proof.
  unfold first_value. apply no_http_bind; [auto with no_http |]. intros cond.
  destruct (py_truthy cond); no_http_steps.
Qed.

Lemma no_http_string_list_values (item : json) : no_http (string_list_values item).
Proof.
  unfold string_list_values. no_http_steps.
Qed.

#[local] Hint Resolve no_http_first_value no_http_string_list_values : no_http.

(** The optional extractors raise no [HTTPException]. *)
Lemma no_http_extract_recently_unfollowed (b : zip_bytes) :
  no_http (extract_recently_unfollowed b).
Proof.
  unfold extract_recently_unfollowed. no_http_steps.
Qed.

Lemma no_http_extract_blocked_users (b : zip_bytes) :
  no_http (extract_blocked_users b).
Proof.
  unfold extract_blocked_users. no_http_steps.
Qed.

Lemma no_http_extract_pending_requests (b : zip_bytes) :
  no_http (extract_pending_requests b).
Proof.
  unfold extract_pending_requests. no_http_steps.
Qed.

Lemma sorted_Raise (l : list json) (e : exn) : sorted l = Raise e -> e = TypeError.
Proof.
  unfold sorted. destruct l as [| x [| y l]]; try discriminate.
  destruct (forallb _ _); [discriminate | now intros [= <-]].
Qed.

(** The stage an exception of the analysis comes from. *)
Lemma analyze_Raise (list_of_set : list json -> list json)
    (new_zip : zip_bytes) (old_zip : option zip_bytes) (e : exn) :
  analyze_zip_files list_of_set new_zip old_zip = Raise e ->
  checks "new_zip" new_zip = Raise e \/
  checks "new_zip" new_zip = Ok tt /\
  (extract_usernames_from_zip new_zip = Raise e \/
   extract_recently_unfollowed new_zip = Raise e \/
   extract_blocked_users new_zip = Raise e \/
   extract_pending_requests new_zip = Raise e \/
   (exists old_bytes,
       old_zip = Some old_bytes /\
       (checks "old_zip" old_bytes = Raise e \/
        checks "old_zip" old_bytes = Ok tt /\
        extract_usernames_from_zip old_bytes = Raise e)) \/
   e = TypeError).
Proof.
  unfold analyze_zip_files.
  destruct (checks "new_zip" new_zip) as [[] | e0]; simpl;
    [| intros [= ->]; now left].
  intros H. right. split; [reflexivity |].
  destruct (extract_usernames_from_zip new_zip) as [[nf ng] | e0]; simpl in H;
    [| injection H as ->; now left].
  destruct (extract_recently_unfollowed new_zip) as [ru | e0]; simpl in H;
    [| injection H as ->; now right; left].
  destruct (extract_blocked_users new_zip) as [bu | e0]; simpl in H;
    [| injection H as ->; now right; right; left].
  destruct (extract_pending_requests new_zip) as [pr | e0]; simpl in H;
    [| injection H as ->; now right; right; right; left].
  do 4 right.
  destruct old_zip as [old_bytes |].
  - destruct (checks "old_zip" old_bytes) as [[] | e0] eqn:Hc; simpl in H;
      [| injection H as ->; left; exists old_bytes; auto].
    destruct (extract_usernames_from_zip old_bytes) as [[f g] | e0] eqn:He;
      simpl in H; [| injection H as ->; left; exists old_bytes; auto].
    right.
    destruct (sorted (list_of_set (set_difference f nf))) as [u | e0] eqn:Hu;
      simpl in H; [| injection H as ->; now apply sorted_Raise in Hu].
    destruct (sorted (list_of_set (set_difference ng nf))) as [n | e0] eqn:Hn;
      simpl in H; [discriminate | injection H as ->; now apply sorted_Raise in Hn].
  - right. simpl in H.
    destruct (sorted (list_of_set (set_difference ng nf))) as [n | e0] eqn:Hn;
      simpl in H; [discriminate | injection H as ->; now apply sorted_Raise in Hn].
Qed.

Lemma contains_nonempty (sub name : string) :
  sub <> "" -> contains sub name = true -> name <> "".
Proof.
  intros Hsub H ->. simpl in H. rewrite orb_false_r in H.
  destruct sub; [contradiction | discriminate].
Qed.

(** The one [HTTPException] of the extraction: a required document is
    missing. *)
Lemma extract_usernames_http (b : zip_bytes) (status : Z) (detail : string) :
  extract_usernames_from_zip b = Raise (HTTPException status detail) ->
  status = 400 /\ detail = missing_detail /\
  exists members,
    b = ZipArchive members /\
    (find (contains "followers_1.json") (namelist members) = None \/
     find (contains "following.json") (namelist members) = None).
Proof.
  unfold extract_usernames_from_zip. destruct b as [| members]; [discriminate |].
  simpl.
  destruct (find (contains "followers_1.json") (namelist members)) as [p |] eqn:Ep.
  - destruct (find (contains "following.json") (namelist members)) as [q |] eqn:Eq.
    + apply find_some in Ep as [_ Ep]. apply find_some in Eq as [_ Eq].
      apply contains_nonempty in Ep; [| discriminate].
      apply contains_nonempty in Eq; [| discriminate].
      apply String.eqb_neq in Ep, Eq. simpl. rewrite Ep, Eq. simpl.
      assert (Hn : no_http (read_usernames members p q))
        by (unfold read_usernames; no_http_steps).
      intros H. exfalso. exact (Hn status detail H).
    + simpl. rewrite orb_true_r. simpl. intros [= <- <-]. eauto 6.
  - simpl. intros [= <- <-]. eauto 6.
Qed.

Lemma checks_outcome (role : string) (members : list ZipInfo) :
  checks role (ZipArchive members)
  = if (sum (map file_size members) <=? MAX_SIZE)%N then
      if Nat.ltb MAX_FILES (List.length members) then
        Raise (HTTPException 400 (too_many_detail role))
      else if existsb (fun name => existsb (endswith (lower name)) DANGEROUS_EXTENSIONS)
                (namelist members) then
        Raise (HTTPException 400 (dangerous_detail role))
      else Ok tt
    else Raise (HTTPException 400 (oversize_detail role)).
Proof.
  unfold checks, is_zip_safe, has_too_many_files, has_dangerous_files, infolist.
  simpl.
  destruct (_ <=? _)%N; simpl; [| reflexivity].
  destruct (Nat.ltb _ _); simpl; [reflexivity |].
  now destruct (existsb _ _).
Qed.

Lemma checks_http (role : string) (b : zip_bytes) (status : Z) (detail : string) :
  checks role b = Raise (HTTPException status detail) ->
  status = 400 /\
  (detail = oversize_detail role \/ detail = too_many_detail role \/
   detail = dangerous_detail role).
Proof.
  destruct b as [| members]; [discriminate |].
  rewrite checks_outcome.
  destruct (_ <=? _)%N; [| intros [= <- <-]; auto].
  destruct (Nat.ltb _ _); [intros [= <- <-]; auto |].
  destruct (existsb _ _); [intros [= <- <-]; auto | discriminate].
Qed.

(** An [HTTPException] of the analysis is one of the checks of the new
    archive, of the checks of the old one, or a missing required
    document. *)
Lemma analyze_http (list_of_set : list json -> list json)
    (new_zip : zip_bytes) (old_zip : option zip_bytes)
    (status : Z) (detail : string) :
  analyze_zip_files list_of_set new_zip old_zip
  = Raise (HTTPException status detail) ->
  status = 400 /\
  (checks "new_zip" new_zip = Raise (HTTPException 400 detail) \/
   detail = missing_detail \/
   detail = oversize_detail "old_zip" \/
   detail = too_many_detail "old_zip" \/
   detail = dangerous_detail "old_zip").
Proof.
  intros H. apply analyze_Raise in H as [H | [_ H]].
  - destruct (checks_http _ _ _ _ H) as [-> _]. auto.
  - destruct H as [H | [H | [H | [H | [H | H]]]]].
    + apply extract_usernames_http in H as (-> & -> & _). auto.
    + now apply no_http_extract_recently_unfollowed in H.
    + now apply no_http_extract_blocked_users in H.
    + now apply no_http_extract_pending_requests in H.
    + destruct H as (old_bytes & _ & [H | [_ H]]).
      * apply checks_http in H as (-> & H). intuition.
      * apply extract_usernames_http in H as (-> & -> & _). auto.
    + discriminate.
Qed.

Lemma dangerous_names (members : list ZipInfo) :
  existsb (fun name => existsb (endswith (lower name)) DANGEROUS_EXTENSIONS)
    (namelist members) = true <->
  exists name ext,
    In name (namelist members) /\ In ext DANGEROUS_EXTENSIONS /\
    endswith (lower name) ext = true.
Proof.
  rewrite existsb_exists. split.
  - intros (name & Hin & H). apply existsb_exists in H as (ext & Hext & H).
    now exists name, ext.
  - intros (name & ext & Hin & Hext & H). exists name. split; [exact Hin |].
    apply existsb_exists. now exists ext.
Qed.

(** ** The reasons of the checks *)

(** The analysis of a new archive raises the size error exactly when the
    declared sizes exceed the ceiling; the count error exactly when they
    do not and there are more than 100 members; the extension error
    exactly when size and count pass and a member name ends, letter case
    aside, in one of the four extensions.  No later stage and no old
    archive raises any of these three errors. *)
Theorem check_errors_name_the_first_failed_check
    (list_of_set : list json -> list json)
    (members : list ZipInfo) (old_zip : option zip_bytes) :
  (analyze_zip_files list_of_set (ZipArchive members) old_zip
   = Raise (HTTPException 400 "new_zip 압축 해제 용량 초과") <->
   (52428800 < sum (map file_size members))%N) /\
  (analyze_zip_files list_of_set (ZipArchive members) old_zip
   = Raise (HTTPException 400 "new_zip 파일 수 초과") <->
   (sum (map file_size members) <= 52428800)%N /\
   (100 < List.length members)%nat) /\
  (analyze_zip_files list_of_set (ZipArchive members) old_zip
   = Raise (HTTPException 400 "new_zip에 위험한 파일이 포함됨") <->
   (sum (map file_size members) <= 52428800)%N /\
   (List.length members <= 100)%nat /\
   exists name ext,
     In name (namelist members) /\ In ext DANGEROUS_EXTENSIONS /\
     endswith (lower name) ext = true).
Proof.
  assert (Hmax : MAX_SIZE = 52428800%N) by reflexivity.
  assert (Hfiles : MAX_FILES = 100%nat) by reflexivity.
  assert (Hrun : forall detail,
             analyze_zip_files list_of_set (ZipArchive members) old_zip
             = Raise (HTTPException 400 detail) ->
             detail <> missing_detail ->
             detail <> oversize_detail "old_zip" ->
             detail <> too_many_detail "old_zip" ->
             detail <> dangerous_detail "old_zip" ->
             checks "new_zip" (ZipArchive members)
             = Raise (HTTPException 400 detail)).
  { intros detail H H1 H2 H3 H4. apply analyze_http in H as [_ H]. intuition. }
  assert (Hback : forall e,
             checks "new_zip" (ZipArchive members) = Raise e ->
             analyze_zip_files list_of_set (ZipArchive members) old_zip = Raise e).
  { intros e H. unfold analyze_zip_files. now rewrite H. }
  pose proof (checks_outcome "new_zip" members) as Hc.
  rewrite Hmax, Hfiles in Hc. rewrite <- dangerous_names.
  destruct (N.leb_spec (sum (map file_size members)) 52428800) as [Hs | Hs];
    [destruct (Nat.ltb_spec 100 (List.length members)) as [Hn | Hn];
     [| destruct (existsb _ (namelist members)) eqn:Hd] |].
  all: split; [| split]; split; intros H.
  all: try (apply Hrun in H; try discriminate; rewrite Hc in H; discriminate).
  all: try lia.
  all: try (destruct H as (_ & _ & H); discriminate).
  all: try (apply Hback; rewrite Hc; reflexivity).
  all: repeat split; auto with arith; lia.
Qed.

(** ** The answers of the endpoint *)

(** Whatever is uploaded, the endpoint answers in one of three ways: 200
    with the record the handler returned; 400 with one of seven reasons
    (the three checks of either upload, or a missing required document);
    or the generic 500 of the middleware, for every other exception. *)
Theorem endpoint_answers_200_400_or_500
    (list_of_set : list json -> list json)
    (new_zip : zip_bytes) (old_zip : option zip_bytes) :
  (exists r,
      analyze_zip_files list_of_set new_zip old_zip = Ok r /\
      validate_origin_middleware (analyze_zip_files list_of_set new_zip old_zip)
      = {| status_code := 200; content := Payload r |}) \/
  (exists detail,
      In detail ["new_zip 압축 해제 용량 초과"; "new_zip 파일 수 초과";
                 "new_zip에 위험한 파일이 포함됨";
                 "old_zip 압축 해제 용량 초과"; "old_zip 파일 수 초과";
                 "old_zip에 위험한 파일이 포함됨";
                 "followers_1.json 또는 following.json이 누락됨"] /\
      validate_origin_middleware (analyze_zip_files list_of_set new_zip old_zip)
      = {| status_code := 400; content := Detail detail |}) \/
  (exists e,
      analyze_zip_files list_of_set new_zip old_zip = Raise e /\
      (forall status detail, e <> HTTPException status detail) /\
      validate_origin_middleware (analyze_zip_files list_of_set new_zip old_zip)
      = {| status_code := 500; content := Detail "Internal server error" |}).
Proof.
  destruct (analyze_zip_files list_of_set new_zip old_zip) as [r | e] eqn:H.
  - left. now exists r.
  - destruct e as [status detail | | | | | |];
      try (right; right; eexists; repeat split; discriminate).
    right. left. exists detail. split; [| simpl].
    + apply analyze_http in H as [_ H].
      destruct H as [H | [-> | [-> | [-> | ->]]]]; simpl; auto 10.
      apply checks_http in H as [_ [-> | [-> | ->]]]; simpl; auto.
    + apply analyze_http in H as [-> _]. reflexivity.
Qed.

(** ** The extension check *)

(** A member whose name ends in one of the four extensions, written in
    any letter case, makes the extension check fire, wherever the member
    sits in the archive; when size and count pass, the analysis raises
    the extension error. *)
Theorem extension_is_matched_in_any_case
    (list_of_set : list json -> list json)
    (members : list ZipInfo) (old_zip : option zip_bytes) (stem suffix : string) :
  In (stem ++ suffix)%string (namelist members) ->
  In (lower suffix) DANGEROUS_EXTENSIONS ->
  has_dangerous_files (ZipArchive members) = Ok true /\
  ((sum (map file_size members) <= 52428800)%N ->
   (List.length members <= 100)%nat ->
   analyze_zip_files list_of_set (ZipArchive members) old_zip
   = Raise (HTTPException 400 "new_zip에 위험한 파일이 포함됨")).
Proof.
  intros Hin Hext.
  assert (H : exists name ext,
             In name (namelist members) /\ In ext DANGEROUS_EXTENSIONS /\
             endswith (lower name) ext = true).
  { exists (stem ++ suffix)%string, (lower suffix). repeat split; try assumption.
    rewrite lower_app. apply endswith_app. }
  split.
  - unfold has_dangerous_files. simpl. f_equal. now apply dangerous_names.
  - intros Hs Hn. unfold analyze_zip_files. rewrite checks_outcome.
    apply N.leb_le in Hs. apply dangerous_names in H.
    assert (Hn' : Nat.ltb MAX_FILES (List.length members) = false)
      by now apply Nat.ltb_ge.
    change MAX_SIZE with 52428800%N. now rewrite Hs, Hn', H.
Qed.

Lemma extension_is_matched_in_any_case_witness :
  In ("docs/payload" ++ ".ExE")%string
    (namelist [member followers_name 64 JNull; member "docs/payload.ExE" 0 JNull]) /\
  In (lower ".ExE") DANGEROUS_EXTENSIONS /\
  has_dangerous_files
    (ZipArchive [member followers_name 64 JNull; member "docs/payload.ExE" 0 JNull])
  = Ok true /\
  analyze_zip_files (fun s => s)
    (ZipArchive [member followers_name 64 JNull; member "docs/payload.ExE" 0 JNull])
    None
  = Raise (HTTPException 400 "new_zip에 위험한 파일이 포함됨").
Proof.
  assert (Hin : In ("docs/payload" ++ ".ExE")%string
                  (namelist [member followers_name 64 JNull;
                             member "docs/payload.ExE" 0 JNull]))
    by (right; left; reflexivity).
  assert (Hext : In (lower ".ExE") DANGEROUS_EXTENSIONS) by (left; reflexivity).
  destruct (extension_is_matched_in_any_case (fun s => s)
              [member followers_name 64 JNull; member "docs/payload.ExE" 0 JNull]
              None "docs/payload" ".ExE" Hin Hext) as [Hd Hrun].
  repeat (split; [assumption |]).
  apply Hrun; [discriminate | simpl; lia].
Defined.

(** An archive all of whose member names end in [.json], in any letter
    case, passes the extension check. *)
Theorem json_members_pass_the_extension_check (members : list ZipInfo) :
  Forall (fun name => endswith (lower name) ".json" = true) (namelist members) ->
  has_dangerous_files (ZipArchive members) = Ok false.
Proof.
  intros H. unfold has_dangerous_files, ZipFile, bind. f_equal.
  destruct (existsb _ (namelist members)) eqn:E; [| reflexivity].
  apply existsb_exists in E as (name & Hin & E).
  rewrite Forall_forall in H.
  now rewrite (json_name_is_harmless name (H name Hin)) in E.
Qed.

Lemma json_members_pass_the_extension_check_witness :
  Forall (fun name => endswith (lower name) ".json" = true)
    (namelist [member followers_name 64 JNull; member "Media/Index.JSON" 9 JNull]) /\
  has_dangerous_files
    (ZipArchive [member followers_name 64 JNull; member "Media/Index.JSON" 9 JNull])
  = Ok false.
Proof.
  assert (H : Forall (fun name => endswith (lower name) ".json" = true)
                (namelist [member followers_name 64 JNull;
                           member "Media/Index.JSON" 9 JNull]))
    by (repeat constructor).
  split; [exact H |].
  exact (json_members_pass_the_extension_check _ H).
Defined.

(** ** What the checks look at *)

(** The three checks read the names and the declared sizes of the
    members and nothing else: archives that have these in common pass or
    fail alike, with the same error, whatever their members hold. *)
Theorem checks_read_names_and_sizes_only
    (role : string) (m1 m2 : list ZipInfo) :
  map filename m1 = map filename m2 ->
  map file_size m1 = map file_size m2 ->
  is_zip_safe (ZipArchive m1) = is_zip_safe (ZipArchive m2) /\
  has_too_many_files (ZipArchive m1) = has_too_many_files (ZipArchive m2) /\
  has_dangerous_files (ZipArchive m1) = has_dangerous_files (ZipArchive m2) /\
  checks role (ZipArchive m1) = checks role (ZipArchive m2).
Proof.
  intros Hn Hs.
  assert (Hl : List.length m1 = List.length m2).
  { rewrite <- (length_map filename m1), <- (length_map filename m2). now rewrite Hn. }
  unfold checks, is_zip_safe, has_too_many_files, has_dangerous_files,
    infolist, namelist. simpl.
  now rewrite Hn, Hs, Hl.
Qed.

Lemma checks_read_names_and_sizes_only_witness :
  map filename old_garbled = map filename old_plain /\
  map file_size old_garbled = map file_size old_plain /\
  is_zip_safe (ZipArchive old_garbled) = is_zip_safe (ZipArchive old_plain) /\
  has_too_many_files (ZipArchive old_garbled)
  = has_too_many_files (ZipArchive old_plain) /\
  has_dangerous_files (ZipArchive old_garbled)
  = has_dangerous_files (ZipArchive old_plain) /\
  checks "new_zip" (ZipArchive old_garbled) = checks "new_zip" (ZipArchive old_plain).
Proof.
  assert (Hn : map filename old_garbled = map filename old_plain) by reflexivity.
  assert (Hs : map file_size old_garbled = map file_size old_plain) by reflexivity.
  split; [exact Hn |]. split; [exact Hs |].
  exact (checks_read_names_and_sizes_only "new_zip" old_garbled old_plain Hn Hs).
Defined.

(** * Further properties of the optional extractors *)

Lemma zip_open_absent (members : list ZipInfo) (path : string) :
  ~ In path (namelist members) -> zip_open members path = Raise KeyError.
Proof.
  induction members as [| info members IH]; simpl; [reflexivity |].
  intros H. rewrite IH by tauto.
  destruct (String.eqb_spec (filename info) path) as [E |]; [| reflexivity].
  exfalso. apply H. now left.
Qed.

(** A missing optional document gives the empty list: each extractor
    looks its document up under one exact path. *)
Theorem absent_optional_document_gives_empty_list (members : list ZipInfo) :
  (~ In recently_unfollowed_path (namelist members) ->
   extract_recently_unfollowed (ZipArchive members) = Ok []) /\
  (~ In blocked_path (namelist members) ->
   extract_blocked_users (ZipArchive members) = Ok []) /\
  (~ In pending_path (namelist members) ->
   extract_pending_requests (ZipArchive members) = Ok []).
Proof.
  unfold extract_recently_unfollowed, extract_blocked_users,
    extract_pending_requests.
  repeat split; intros H; simpl; now rewrite (zip_open_absent _ _ H).
Qed.

Lemma absent_optional_document_gives_empty_list_witness :
  ~ In recently_unfollowed_path
      (namelist [member followers_name 64 JNull;
                 member "Connections/followers_and_following/recently_unfollowed_profiles.json"
                   64 (JObj [("relationships_unfollowed_users", JArr [profile "x"])])]) /\
  extract_recently_unfollowed
    (ZipArchive
       [member followers_name 64 JNull;
        member "Connections/followers_and_following/recently_unfollowed_profiles.json"
          64 (JObj [("relationships_unfollowed_users", JArr [profile "x"])])])
  = Ok [].
Proof.
  assert (H : ~ In recently_unfollowed_path
                (namelist [member followers_name 64 JNull;
                           member "Connections/followers_and_following/recently_unfollowed_profiles.json"
                             64 (JObj [("relationships_unfollowed_users",
                                        JArr [profile "x"])])])).
  { simpl. intros [E | [E | []]]; discriminate. }
  split; [exact H |].
  exact (proj1 (absent_optional_document_gives_empty_list _) H).
Defined.

Lemma mapM_titles (records titles : list json) :
  Forall2 titled records titles ->
  mapM (fun entry => py_getitem entry "title") records = Ok titles.
Proof.
  induction 1 as [| record title records titles (fields & -> & Ht) _ IH]; simpl.
  - reflexivity.
  - now rewrite Ht, IH.
Qed.

(** The blocked accounts are the titles of the records, in the order of
    the document and with its repetitions. *)
Theorem blocked_users_are_the_titles_in_order
    (members : list ZipInfo) (info : ZipInfo)
    (document : list (string * json)) (records titles : list json) :
  zip_open members blocked_path = Ok info ->
  parsed info = Some (JObj document) ->
  dict_lookup "relationships_blocked_users" document = Some (JArr records) ->
  Forall2 titled records titles ->
  extract_blocked_users (ZipArchive members) = Ok titles.
Proof.
  intros Hopen Hparsed Husers Htitles.
  unfold extract_blocked_users, json_load. simpl.
  rewrite Hopen. simpl. rewrite Hparsed. simpl. rewrite Husers. simpl.
  now rewrite (mapM_titles records titles Htitles).
Qed.

Lemma blocked_users_are_the_titles_in_order_witness :
  zip_open
    (with_blocked (JObj [("relationships_blocked_users", JArr sample_blocked)]))
    blocked_path
  = Ok (member blocked_path 64
          (JObj [("relationships_blocked_users", JArr sample_blocked)])) /\
  Forall2 titled sample_blocked [JStr "z"; JStr "a"; JStr "z"] /\
  extract_blocked_users
    (ZipArchive
       (with_blocked (JObj [("relationships_blocked_users", JArr sample_blocked)])))
  = Ok [JStr "z"; JStr "a"; JStr "z"].
Proof.
  assert (Ht : Forall2 titled sample_blocked [JStr "z"; JStr "a"; JStr "z"]).
  { repeat constructor; eexists; split; reflexivity. }
  split; [reflexivity |]. split; [exact Ht |].
  exact (blocked_users_are_the_titles_in_order
           (with_blocked (JObj [("relationships_blocked_users", JArr sample_blocked)]))
           (member blocked_path 64
              (JObj [("relationships_blocked_users", JArr sample_blocked)]))
           [("relationships_blocked_users", JArr sample_blocked)]
           sample_blocked [JStr "z"; JStr "a"; JStr "z"]
           eq_refl eq_refl eq_refl Ht).
Defined.

Lemma first_value_first_entry (record : json) (picked : list json) :
  first_entry record picked -> first_value record = Ok picked.
Proof.
  unfold first_value.
  intros [fields H | fields data H Hf | fields entry rest v H Hv]; simpl;
    rewrite H; simpl.
  - reflexivity.
  - now rewrite Hf.
  - now rewrite Hv.
Qed.

Lemma flat_mapM_first_entries (records : list json) (picked : list (list json)) :
  Forall2 first_entry records picked ->
  flat_mapM first_value records = Ok (List.concat picked).
Proof.
  induction 1 as [| record p records picked Hp _ IH]; simpl; [reflexivity |].
  now rewrite (first_value_first_entry record p Hp), IH.
Qed.

(** The recently unfollowed accounts, and the pending requests, are the
    values of the first [string_list_data] entry of the records that have
    one, in the order of the document: records without the list or with
    an empty one are skipped, and further entries of a record are not
    looked at. *)
Theorem first_values_in_document_order
    (members : list ZipInfo) (info : ZipInfo)
    (document : list (string * json)) (records : list json)
    (picked : list (list json)) :
  parsed info = Some (JObj document) ->
  Forall2 first_entry records picked ->
  (zip_open members recently_unfollowed_path = Ok info ->
   dict_lookup "relationships_unfollowed_users" document = Some (JArr records) ->
   extract_recently_unfollowed (ZipArchive members) = Ok (List.concat picked)) /\
  (zip_open members pending_path = Ok info ->
   dict_lookup "relationships_follow_requests_sent" document = Some (JArr records) ->
   extract_pending_requests (ZipArchive members) = Ok (List.concat picked)).
Proof.
  intros Hparsed Hpicked.
  unfold extract_recently_unfollowed, extract_pending_requests, json_load.
  split; intros Hopen Husers; simpl;
    rewrite Hopen; simpl; rewrite Hparsed; simpl; rewrite Husers; simpl;
    now rewrite (flat_mapM_first_entries records picked Hpicked).
Qed.

Lemma first_values_in_document_order_witness :
  Forall2 first_entry sample_unfollowed
    [[JStr "x"]; []; [JStr "y"]; []; [JStr "x"]] /\
  extract_recently_unfollowed (ZipArchive (with_unfollowed sample_unfollowed))
  = Ok [JStr "x"; JStr "y"; JStr "x"].
Proof.
  assert (H : Forall2 first_entry sample_unfollowed
                [[JStr "x"]; []; [JStr "y"]; []; [JStr "x"]]).
  { unfold sample_unfollowed, profile.
    constructor; [eapply first_entry_value; reflexivity |].
    constructor; [apply first_entry_absent; reflexivity |].
    constructor; [eapply first_entry_value; reflexivity |].
    constructor; [eapply first_entry_falsy; reflexivity |].
    constructor; [eapply first_entry_value; reflexivity | constructor]. }
  split; [exact H |].
  exact (proj1 (first_values_in_document_order
                  (with_unfollowed sample_unfollowed)
                  (member recently_unfollowed_path 64
                     (JObj [("relationships_unfollowed_users",
                             JArr sample_unfollowed)]))
                  [("relationships_unfollowed_users", JArr sample_unfollowed)]
                  sample_unfollowed _ eq_refl H) eq_refl eq_refl).
Defined.

Lemma flat_mapM_unvalued (good : list json) (picked : list (list json))
    (bad : json) (rest : list json) :
  Forall2 first_entry good picked -> first_entry_unvalued bad ->
  flat_mapM first_value (good ++ bad :: rest) = Raise KeyError.
Proof.
  intros Hgood (fields & entry & more & -> & Hlist & Hvalue).
  induction Hgood as [| record p good picked Hp _ IH]; simpl.
  - unfold first_value. simpl. rewrite Hlist. simpl. now rewrite Hvalue.
  - now rewrite (first_value_first_entry record p Hp), IH.
Qed.

(** In the documents of recently unfollowed accounts and of pending
    requests, one record whose first entry has no [value] empties the
    whole list: its [KeyError] is caught by the handler of the missing
    path, and the values read before it are lost with it. *)
Theorem unvalued_first_entry_empties_the_list
    (members : list ZipInfo) (info : ZipInfo)
    (document : list (string * json)) (good rest : list json) (bad : json)
    (picked : list (list json)) :
  parsed info = Some (JObj document) ->
  Forall2 first_entry good picked ->
  first_entry_unvalued bad ->
  (zip_open members recently_unfollowed_path = Ok info ->
   dict_lookup "relationships_unfollowed_users" document
   = Some (JArr (good ++ bad :: rest)) ->
   extract_recently_unfollowed (ZipArchive members) = Ok []) /\
  (zip_open members pending_path = Ok info ->
   dict_lookup "relationships_follow_requests_sent" document
   = Some (JArr (good ++ bad :: rest)) ->
   extract_pending_requests (ZipArchive members) = Ok []).
Proof.
  intros Hparsed Hgood Hbad.
  unfold extract_recently_unfollowed, extract_pending_requests, json_load.
  split; intros Hopen Husers; simpl;
    rewrite Hopen; simpl; rewrite Hparsed; simpl; rewrite Husers; simpl;
    now rewrite (flat_mapM_unvalued good picked bad rest Hgood Hbad).
Qed.

Lemma unvalued_first_entry_empties_the_list_witness :
  Forall2 first_entry [profile "x"; profile "y"] [[JStr "x"]; [JStr "y"]] /\
  first_entry_unvalued
    (JObj [("string_list_data", JArr [JObj [("href", JStr "h")]])]) /\
  extract_recently_unfollowed
    (ZipArchive
       (with_unfollowed
          ([profile "x"; profile "y"]
           ++ JObj [("string_list_data", JArr [JObj [("href", JStr "h")]])]
           :: [profile "z"])))
  = Ok [].
Proof.
  assert (Hgood : Forall2 first_entry [profile "x"; profile "y"]
                    [[JStr "x"]; [JStr "y"]]).
  { unfold profile. repeat (constructor; [eapply first_entry_value; reflexivity |]).
    constructor. }
  assert (Hbad : first_entry_unvalued
                   (JObj [("string_list_data", JArr [JObj [("href", JStr "h")]])])).
  { exists [("string_list_data", JArr [JObj [("href", JStr "h")]])],
      [("href", JStr "h")], []. repeat split. }
  split; [exact Hgood |]. split; [exact Hbad |].
  exact (proj1 (unvalued_first_entry_empties_the_list
                  (with_unfollowed
                     ([profile "x"; profile "y"]
                      ++ JObj [("string_list_data", JArr [JObj [("href", JStr "h")]])]
                      :: [profile "z"]))
                  (member recently_unfollowed_path 64
                     (JObj [("relationships_unfollowed_users",
                             JArr ([profile "x"; profile "y"]
                                   ++ JObj [("string_list_data",
                                             JArr [JObj [("href", JStr "h")]])]
                                   :: [profile "z"]))]))
                  [("relationships_unfollowed_users",
                    JArr ([profile "x"; profile "y"]
                          ++ JObj [("string_list_data",
                                    JArr [JObj [("href", JStr "h")]])]
                          :: [profile "z"]))]
                  [profile "x"; profile "y"] [profile "z"] _ _
                  eq_refl Hgood Hbad) eq_refl eq_refl).
Defined.

(** An optional document that parses to something other than an object
    (a list, say, as the followers document is) makes its extractor raise
    [AttributeError], which it does not catch. *)
Theorem optional_document_must_be_an_object
    (members : list ZipInfo) (info : ZipInfo) (data : json) :
  parsed info = Some data ->
  is_record data = false ->
  (zip_open members recently_unfollowed_path = Ok info ->
   extract_recently_unfollowed (ZipArchive members) = Raise AttributeError) /\
  (zip_open members blocked_path = Ok info ->
   extract_blocked_users (ZipArchive members) = Raise AttributeError) /\
  (zip_open members pending_path = Ok info ->
   extract_pending_requests (ZipArchive members) = Raise AttributeError).
Proof.
  intros Hparsed Hdata.
  unfold extract_recently_unfollowed, extract_blocked_users,
    extract_pending_requests, json_load.
  repeat split; intros Hopen; simpl; rewrite Hopen; simpl; rewrite Hparsed;
    now destruct data.
Qed.

Lemma optional_document_must_be_an_object_witness :
  parsed (member blocked_path 64 (JArr sample_blocked)) = Some (JArr sample_blocked) /\
  is_record (JArr sample_blocked) = false /\
  extract_blocked_users (ZipArchive (with_blocked (JArr sample_blocked)))
  = Raise AttributeError /\
  analyze_zip_files (fun s => s) (ZipArchive (with_blocked (JArr sample_blocked))) None
  = Raise AttributeError.
Proof.
  split; [reflexivity |]. split; [reflexivity |].
  split; [| reflexivity].
  exact (proj1 (proj2 (optional_document_must_be_an_object
                         (with_blocked (JArr sample_blocked))
                         (member blocked_path 64 (JArr sample_blocked))
                         (JArr sample_blocked) eq_refl eq_refl)) eq_refl).
Defined.

(** An optional document that is an object without its collection key
    gives the empty list, like a missing document. *)
Theorem optional_document_without_its_key_gives_empty_list
    (members : list ZipInfo) (info : ZipInfo) (document : list (string * json)) :
  parsed info = Some (JObj document) ->
  (zip_open members recently_unfollowed_path = Ok info ->
   dict_lookup "relationships_unfollowed_users" document = None ->
   extract_recently_unfollowed (ZipArchive members) = Ok []) /\
  (zip_open members blocked_path = Ok info ->
   dict_lookup "relationships_blocked_users" document = None ->
   extract_blocked_users (ZipArchive members) = Ok []) /\
  (zip_open members pending_path = Ok info ->
   dict_lookup "relationships_follow_requests_sent" document = None ->
   extract_pending_requests (ZipArchive members) = Ok []).
Proof.
  intros Hparsed.
  unfold extract_recently_unfollowed, extract_blocked_users,
    extract_pending_requests, json_load.
  repeat split; intros Hopen Hkey; simpl; rewrite Hopen; simpl; rewrite Hparsed;
    simpl; now rewrite Hkey.
Qed.

Lemma optional_document_without_its_key_gives_empty_list_witness :
  parsed (member blocked_path 64
            (JObj [("relationships_unfollowed_users", JArr sample_blocked)]))
  = Some (JObj [("relationships_unfollowed_users", JArr sample_blocked)]) /\
  extract_blocked_users
    (ZipArchive
       (with_blocked (JObj [("relationships_unfollowed_users", JArr sample_blocked)])))
  = Ok [].
Proof.
  split; [reflexivity |].
  exact (proj1 (proj2 (optional_document_without_its_key_gives_empty_list
                         (with_blocked
                            (JObj [("relationships_unfollowed_users",
                                    JArr sample_blocked)]))
                         (member blocked_path 64
                            (JObj [("relationships_unfollowed_users",
                                    JArr sample_blocked)]))
                         [("relationships_unfollowed_users", JArr sample_blocked)]
                         eq_refl)) eq_refl eq_refl).
Defined.

(** * Further properties of the extraction of followers and following *)

Lemma py_eqb_JStr (n : string) (v : json) : py_eqb (JStr n) v = true <-> v = JStr n.
Proof.
  destruct v; simpl; try (split; [discriminate | discriminate]).
  rewrite String.eqb_eq. split; [now intros -> | now intros [= ->]].
Qed.

Lemma set_mem_JStr (n : string) (s : list json) :
  set_mem (JStr n) s = true <-> In (JStr n) s.
Proof.
  unfold set_mem. rewrite existsb_exists. split.
  - intros (v & Hin & H). apply py_eqb_JStr in H. now subst v.
  - intros H. exists (JStr n). split; [exact H |]. now apply py_eqb_JStr.
Qed.

Lemma In_fold_set_add (v : json) (values acc : list json) :
  In v (fold_left set_add values acc) -> In v acc \/ In v values.
Proof.
  revert acc. induction values as [| x values IH]; simpl; intros acc H; [now left |].
  apply IH in H as [H | H]; [| now right; right].
  unfold set_add in H. destruct (set_mem x acc); [now left |].
  apply in_app_or in H as [H | [-> | []]]; [now left | right; now left].
Qed.

Lemma set_mem_fold_set_add (v : json) (values acc : list json) :
  set_mem v (fold_left set_add values acc) = set_mem v acc || set_mem v values.
Proof.
  revert acc. induction values as [| x values IH]; simpl; intros acc.
  - now rewrite orb_false_r.
  - rewrite IH. unfold set_add, set_mem at 3. simpl.
    destruct (set_mem x acc) eqn:E.
    + destruct (py_eqb v x) eqn:Evx; simpl; [| reflexivity].
      assert (Hv : set_mem v acc = true); [| now rewrite Hv].
      unfold set_mem in *. apply existsb_exists in E as (y & Hy & E).
      apply existsb_exists. exists y. split; [exact Hy |].
      destruct v, x, y; simpl in *; try discriminate; try reflexivity;
        try (apply Z.eqb_eq in Evx, E; apply Z.eqb_eq; congruence);
        try (apply String.eqb_eq in Evx, E; apply String.eqb_eq; congruence).
    + unfold set_mem. rewrite existsb_app. simpl.
      now rewrite orb_false_r, orb_assoc.
Qed.

(** A set built from names holds exactly these names, each once. *)
Lemma py_set_names (names : list string) :
  (forall v, In v (py_set (map JStr names)) <-> exists n, v = JStr n /\ In n names) /\
  NoDup (py_set (map JStr names)).
Proof.
  split.
  - intros v. split.
    + intros H. apply In_fold_set_add in H as [[] | H].
      apply in_map_iff in H as (n & <- & H). now exists n.
    + intros (n & -> & H). apply set_mem_JStr. unfold py_set.
      rewrite set_mem_fold_set_add. simpl. apply set_mem_JStr.
      now apply in_map.
  - assert (Hd := distinct_py_set (map JStr names)).
    assert (Hs : Forall (fun v => exists n, v = JStr n) (py_set (map JStr names))).
    { apply Forall_forall. intros v H. apply In_fold_set_add in H as [[] | H].
      apply in_map_iff in H as (n & <- & _). now exists n. }
    induction (py_set (map JStr names)) as [| v s IH]; [constructor |].
    destruct Hd as [Hv Hd]. inversion Hs as [| ? ? (n & ->) Hs']; subst.
    constructor; [| now apply IH].
    intros Hin. apply set_mem_JStr in Hin. congruence.
Qed.

Lemma mapM_valued_names (entries : list json) (names : list string) :
  Forall2 valued entries (map JStr names) ->
  mapM (fun entry => v <- py_getitem entry "value" ;; py_hash v) entries
  = Ok (map JStr names).
Proof.
  revert entries. induction names as [| n names IH]; intros entries H;
    inversion H as [| entry v entries' values (ef & -> & Hv) Hrest]; subst; simpl.
  - reflexivity.
  - rewrite Hv. simpl. now rewrite (IH entries' Hrest).
Qed.

Lemma string_list_values_names (item : json) (names : list string) :
  item_values item (map JStr names) ->
  string_list_values item = Ok (map JStr names).
Proof.
  unfold string_list_values. intros H.
  inversion H as [fields Hf Hi Hn | fields entries values Hf Hvalues Hi Hn]; subst;
    simpl; rewrite Hf; simpl.
  - reflexivity.
  - now apply mapM_valued_names.
Qed.

Lemma flat_mapM_names (items : list json) (names : list (list string)) :
  Forall2 item_values items (names_of names) ->
  flat_mapM string_list_values items = Ok (map JStr (List.concat names)).
Proof.
  unfold names_of. revert names.
  induction items as [| item items IH]; intros [| ns names] H; inversion H; subst;
    simpl; [reflexivity |].
  rewrite (string_list_values_names item ns) by assumption. simpl.
  rewrite (IH names) by assumption. simpl. now rewrite map_app.
Qed.



(** The followers document has to be a list and the following document
    an object: a followers document that is an object with a member, or a
    following document that is anything but an object, makes the
    extraction raise [AttributeError]. *)
Theorem required_documents_have_fixed_shapes
    (members : list ZipInfo) (p q : string) (followers_info : ZipInfo) :
  first_match "followers_1.json" (namelist members) p ->
  first_match "following.json" (namelist members) q ->
  zip_open members p = Ok followers_info ->
  (forall key value rest,
      parsed followers_info = Some (JObj ((key, value) :: rest)) ->
      extract_usernames_from_zip (ZipArchive members) = Raise AttributeError) /\
  (forall items names following_info data,
      parsed followers_info = Some (JArr items) ->
      Forall2 item_values items (names_of names) ->
      zip_open members q = Ok following_info ->
      parsed following_info = Some data ->
      is_record data = false ->
      extract_usernames_from_zip (ZipArchive members) = Raise AttributeError).
Proof.
  intros Hp Hq Hfo. apply find_first_match in Hp, Hq.
  rewrite (extract_usernames_read members p q Hp Hq).
  unfold read_usernames, json_load. rewrite Hfo. simpl.
  split.
  - intros key value rest ->. reflexivity.
  - intros items names gi data -> Hitems Hgo Hgp Hdata. simpl.
    rewrite (flat_mapM_names items names Hitems). simpl.
    rewrite Hgo. simpl. rewrite Hgp. now destruct data.
Qed.

Lemma required_documents_have_fixed_shapes_witness :
  first_match "followers_1.json" (namelist followers_as_object) followers_name /\
  first_match "following.json" (namelist followers_as_object) following_name /\
  extract_usernames_from_zip (ZipArchive followers_as_object) = Raise AttributeError.
Proof.
  assert (Hp : first_match "followers_1.json" (namelist followers_as_object)
                 followers_name).
  { exists [], [following_name]. repeat split; constructor. }
  assert (Hq : first_match "following.json" (namelist followers_as_object)
                 following_name).
  { exists [followers_name], []. repeat split; repeat constructor. }
  split; [exact Hp |]. split; [exact Hq |].
  exact (proj1 (required_documents_have_fixed_shapes followers_as_object
                  followers_name following_name
                  (member followers_name 64
                     (JObj [("relationships_followers", JArr [record [JStr "a"]])]))
                  Hp Hq eq_refl)
           "relationships_followers" (JArr [record [JStr "a"]]) [] eq_refl).
Defined.

Lemma string_list_values_unvalued (item : json) :
  item_unvalued item -> string_list_values item = Raise KeyError.
Proof.
  intros (fields & good & names & bad & more & -> & Hlist & Hgood & Hbad).
  unfold string_list_values. simpl. rewrite Hlist. simpl.
  clear Hlist. revert good Hgood.
  induction names as [| n names IH]; intros good Hgood;
    inversion Hgood as [| entry v good' values (ef & -> & Hv) Hrest]; subst; simpl.
  - now rewrite Hbad.
  - rewrite Hv. simpl. now rewrite (IH good' Hrest).
Qed.

Lemma flat_mapM_item_unvalued (good : list json) (names : list (list string))
    (bad : json) (rest : list json) :
  Forall2 item_values good (names_of names) -> item_unvalued bad ->
  flat_mapM string_list_values (good ++ bad :: rest) = Raise KeyError.
Proof.
  unfold names_of. intros Hgood Hbad. revert names Hgood.
  induction good as [| item good IH]; intros [| ns names] Hgood;
    inversion Hgood; subst; simpl.
  - now rewrite (string_list_values_unvalued bad Hbad).
  - rewrite (string_list_values_names item ns) by assumption. simpl.
    now rewrite (IH names).
Qed.

(** In the followers document an entry without [value] is fatal: the
    [KeyError] that the optional extractors turn into an empty list is
    not caught here, the extraction raises it, and an analysis that got
    past the checks ends in the generic 500. *)
Theorem unvalued_follower_fails_the_analysis
    (list_of_set : list json -> list json)
    (members : list ZipInfo) (old_zip : option zip_bytes)
    (p q : string) (followers_info : ZipInfo)
    (good rest : list json) (bad : json) (names : list (list string)) :
  first_match "followers_1.json" (namelist members) p ->
  first_match "following.json" (namelist members) q ->
  zip_open members p = Ok followers_info ->
  parsed followers_info = Some (JArr (good ++ bad :: rest)) ->
  Forall2 item_values good (names_of names) ->
  item_unvalued bad ->
  extract_usernames_from_zip (ZipArchive members) = Raise KeyError /\
  (checks "new_zip" (ZipArchive members) = Ok tt ->
   analyze_zip_files list_of_set (ZipArchive members) old_zip = Raise KeyError /\
   validate_origin_middleware
     (analyze_zip_files list_of_set (ZipArchive members) old_zip)
   = {| status_code := 500; content := Detail "Internal server error" |}).
Proof.
  intros Hp Hq Hfo Hfp Hgood Hbad. apply find_first_match in Hp, Hq.
  assert (He : extract_usernames_from_zip (ZipArchive members) = Raise KeyError).
  { rewrite (extract_usernames_read members p q Hp Hq).
    unfold read_usernames, json_load. rewrite Hfo. simpl. rewrite Hfp. simpl.
    now rewrite (flat_mapM_item_unvalued good names bad rest Hgood Hbad). }
  split; [exact He |]. intros Hc.
  assert (Hrun : analyze_zip_files list_of_set (ZipArchive members) old_zip
                 = Raise KeyError).
  { unfold analyze_zip_files. now rewrite Hc, He. }
  split; [exact Hrun | now rewrite Hrun].
Qed.

Lemma unvalued_follower_fails_the_analysis_witness :
  first_match "followers_1.json" (namelist follower_unvalued) followers_name /\
  first_match "following.json" (namelist follower_unvalued) following_name /\
  Forall2 item_values [record [JStr "a"]] (names_of [["a"]]) /\
  item_unvalued (JObj [("string_list_data", JArr [JObj [("href", JStr "h")]])]) /\
  extract_usernames_from_zip (ZipArchive follower_unvalued) = Raise KeyError /\
  analyze_zip_files (fun s => s) (ZipArchive follower_unvalued) None = Raise KeyError /\
  validate_origin_middleware
    (analyze_zip_files (fun s => s) (ZipArchive follower_unvalued) None)
  = {| status_code := 500; content := Detail "Internal server error" |}.
Proof.
  assert (Hp : first_match "followers_1.json" (namelist follower_unvalued)
                 followers_name).
  { exists [], [following_name]. repeat split; constructor. }
  assert (Hq : first_match "following.json" (namelist follower_unvalued)
                 following_name).
  { exists [followers_name], []. repeat split; repeat constructor. }
  assert (Hgood : Forall2 item_values [record [JStr "a"]] (names_of [["a"]])).
  { constructor; [| constructor].
    eapply item_values_entries; [reflexivity |].
    constructor; [| constructor]. eexists. split; reflexivity. }
  assert (Hbad : item_unvalued
                   (JObj [("string_list_data", JArr [JObj [("href", JStr "h")]])])).
  { exists [("string_list_data", JArr [JObj [("href", JStr "h")]])],
      [], [], [("href", JStr "h")], [].
    repeat split. constructor. }
  repeat (split; [assumption |]).
  destruct (unvalued_follower_fails_the_analysis (fun s => s) follower_unvalued None
              followers_name following_name
              (member followers_name 64
                 (JArr [record [JStr "a"];
                        JObj [("string_list_data", JArr [JObj [("href", JStr "h")]])];
                        record [JStr "c"]]))
              [record [JStr "a"]] [record [JStr "c"]]
              (JObj [("string_list_data", JArr [JObj [("href", JStr "h")]])])
              [["a"]] Hp Hq eq_refl eq_refl Hgood Hbad) as [He Hrun].
  split; [exact He |]. apply Hrun. reflexivity.
Defined.

(** * Further properties of the analysis *)

Lemma py_hash_Ok (v w : json) : py_hash v = Ok w -> w = v /\ py_eqb v v = true.
Proof.
  destruct v as [| [|] | n | s | |]; simpl; intros [= <-]; split; try reflexivity.
  - apply Z.eqb_refl.
  - apply String.eqb_refl.
Qed.

Lemma mapM_Forall {A B : Type} (P : B -> Prop) (f : A -> result B)
    (l : list A) (l' : list B) :
  (forall a b, f a = Ok b -> P b) -> mapM f l = Ok l' -> Forall P l'.
Proof.
  intros Hf. revert l'. induction l as [| a l IH]; simpl; intros l' H.
  - injection H as <-. constructor.
  - apply bind_Ok in H as (b & Hb & H). apply bind_Ok in H as (bs & Hbs & H).
    injection H as <-. constructor; [now apply (Hf a) | now apply IH].
Qed.

Lemma flat_mapM_Forall {A B : Type} (P : B -> Prop) (f : A -> result (list B))
    (l : list A) (l' : list B) :
  (forall a bs, f a = Ok bs -> Forall P bs) -> flat_mapM f l = Ok l' -> Forall P l'.
Proof.
  intros Hf. revert l'. induction l as [| a l IH]; simpl; intros l' H.
  - injection H as <-. constructor.
  - apply bind_Ok in H as (b & Hb & H). apply bind_Ok in H as (bs & Hbs & H).
    injection H as <-. apply Forall_app. split; [now apply (Hf a) | now apply IH].
Qed.

Lemma string_list_values_reflexive (item : json) (values : list json) :
  string_list_values item = Ok values ->
  Forall (fun v => py_eqb v v = true) values.
Proof.
  unfold string_list_values. intros H.
  apply bind_Ok in H as (data & _ & H). apply bind_Ok in H as (entries & _ & H).
  eapply mapM_Forall; [| exact H].
  intros entry v Hv. simpl in Hv.
  apply bind_Ok in Hv as (w & _ & Hv). now apply py_hash_Ok in Hv as [-> Hv].
Qed.

Lemma py_set_reflexive (values : list json) :
  Forall (fun v => py_eqb v v = true) values ->
  Forall (fun v => py_eqb v v = true) (py_set values).
Proof.
  intros H. apply Forall_forall. intros v Hv.
  apply In_fold_set_add in Hv as [[] | Hv].
  rewrite Forall_forall in H. now apply H.
Qed.

(** Every value of an extracted set equals itself: it was hashed. *)
Lemma extract_usernames_reflexive (b : zip_bytes) (followers following : list json) :
  extract_usernames_from_zip b = Ok (followers, following) ->
  Forall (fun v => py_eqb v v = true) followers /\
  Forall (fun v => py_eqb v v = true) following.
Proof.
  unfold extract_usernames_from_zip. intros H.
  apply bind_Ok in H as (z & _ & H). apply bind_Ok in H as (? & _ & H).
  apply bind_Ok in H as (? & _ & H). apply bind_Ok in H as (? & _ & H).
  apply bind_Ok in H as (? & _ & H). apply bind_Ok in H as (fv & Hfv & H).
  apply bind_Ok in H as (? & _ & H). apply bind_Ok in H as (? & _ & H).
  apply bind_Ok in H as (? & _ & H). apply bind_Ok in H as (? & _ & H).
  apply bind_Ok in H as (gv & Hgv & H). injection H as <- <-.
  split; apply py_set_reflexive.
  - apply (flat_mapM_Forall _ _ _ _ string_list_values_reflexive Hfv).
  - apply (flat_mapM_Forall _ _ _ _ string_list_values_reflexive Hgv).
Qed.

Lemma filter_nothing {A : Type} (f : A -> bool) (l : list A) :
  (forall a, In a l -> f a = false) -> filter f l = [].
Proof.
  induction l as [| a l IH]; simpl; intros H; [reflexivity |].
  rewrite (H a) by now left. apply IH. intros b Hb. apply H. now right.
Qed.

Lemma set_difference_self (s : list json) :
  Forall (fun v => py_eqb v v = true) s -> set_difference s s = [].
Proof.
  intros H. unfold set_difference. apply filter_nothing.
  intros v Hv. apply negb_false_iff. unfold set_mem. apply existsb_exists.
  exists v. split; [exact Hv |]. rewrite Forall_forall in H. now apply H.
Qed.

Lemma checks_any_role (role role' : string) (b : zip_bytes) :
  checks role b = Ok tt -> checks role' b = Ok tt.
Proof.
  destruct b as [| members]; [discriminate |].
  rewrite !checks_outcome.
  destruct (_ <=? _)%N; [| discriminate].
  destruct (Nat.ltb _ _); [discriminate |].
  now destruct (existsb _ _).
Qed.

(** Uploading one export as both the new and the old archive reports no
    unfollower: the analysis returns what it returns for the export
    alone. *)
Theorem same_export_twice_reports_no_unfollower
    (list_of_set : list json -> list json) (b : zip_bytes) (r : analysis) :
  iteration_order list_of_set ->
  analyze_zip_files list_of_set b None = Ok r ->
  analyze_zip_files list_of_set b (Some b) = Ok r /\ unfollowers r = [].
Proof.
  intros Horder H.
  apply analyze_Ok in H as (nf & ng & Hc & He & Hru & Hbu & Hpr & Hu & Hn).
  split; [| exact Hu].
  destruct r as [u n ru bu pr]. simpl in *. subst u.
  apply analyze_returns with nf ng; try assumption.
  split; [now apply checks_any_role with "new_zip" |].
  exists nf, ng. split; [exact He |].
  destruct (extract_usernames_reflexive _ _ _ He) as [Hf _].
  rewrite (set_difference_self nf Hf).
  now rewrite (Permutation_nil (Permutation_sym (Horder []))).
Qed.

Lemma same_export_twice_reports_no_unfollower_witness :
  iteration_order (@rev json) /\
  analyze_zip_files (@rev json) repeating_new None
  = Ok {| unfollowers := [];
          not_following_back := [JStr "d"; JStr "e"];
          recently_unfollowed := [];
          blocked_users := [];
          pending_requests := [] |} /\
  analyze_zip_files (@rev json) repeating_new (Some repeating_new)
  = Ok {| unfollowers := [];
          not_following_back := [JStr "d"; JStr "e"];
          recently_unfollowed := [];
          blocked_users := [];
          pending_requests := [] |}.
Proof.
  assert (Horder : iteration_order (@rev json)).
  { intros s. apply Permutation_sym, Permutation_rev. }
  assert (Hrun : analyze_zip_files (@rev json) repeating_new None
                 = Ok {| unfollowers := [];
                         not_following_back := [JStr "d"; JStr "e"];
                         recently_unfollowed := [];
                         blocked_users := [];
                         pending_requests := [] |}) by reflexivity.
  split; [exact Horder |]. split; [exact Hrun |].
  exact (proj1 (same_export_twice_reports_no_unfollower (@rev json)
                  repeating_new _ Horder Hrun)).
Defined.

(** The old archive shows in [unfollowers] only: when the analysis of two
    uploads returns a record, the analysis of the new upload alone
    returns the same record with an empty [unfollowers]. *)
Theorem old_archive_shows_in_unfollowers_only
    (list_of_set : list json -> list json)
    (new_zip old_bytes : zip_bytes) (r : analysis) :
  analyze_zip_files list_of_set new_zip (Some old_bytes) = Ok r ->
  analyze_zip_files list_of_set new_zip None
  = Ok {| unfollowers := [];
          not_following_back := not_following_back r;
          recently_unfollowed := recently_unfollowed r;
          blocked_users := blocked_users r;
          pending_requests := pending_requests r |}.
Proof.
  intros H.
  apply analyze_Ok in H as (nf & ng & Hc & He & Hru & Hbu & Hpr & _ & Hn).
  now apply analyze_returns with nf ng.
Qed.

Lemma old_archive_shows_in_unfollowers_only_witness :
  analyze_zip_files (fun s => s) repeating_new (Some repeating_old)
  = Ok repeating_result /\
  analyze_zip_files (fun s => s) repeating_new None
  = Ok {| unfollowers := [];
          not_following_back := not_following_back repeating_result;
          recently_unfollowed := recently_unfollowed repeating_result;
          blocked_users := blocked_users repeating_result;
          pending_requests := pending_requests repeating_result |}.
Proof.
  assert (Hrun : analyze_zip_files (fun s => s) repeating_new (Some repeating_old)
                 = Ok repeating_result) by reflexivity.
  split; [exact Hrun |].
  exact (old_archive_shows_in_unfollowers_only (fun s => s)
           repeating_new repeating_old repeating_result Hrun).
Defined.

(** ** The reasons that involve the old archive *)

Lemma analyze_is_handler_sequence (list_of_set : list json -> list json)
    (new_zip : zip_bytes) (old_zip : option zip_bytes) :
  analyze_zip_files list_of_set new_zip old_zip
  = handler_sequence list_of_set new_zip old_zip.
Proof.
  unfold analyze_zip_files, handler_sequence, validate, extractSnapshot,
    extractFollowers, diff.
  destruct (checks "new_zip" new_zip) as [[] | e]; simpl; [| reflexivity].
  destruct (extract_usernames_from_zip new_zip) as [[nf ng] | e];
    simpl; [| reflexivity].
  destruct (extract_recently_unfollowed new_zip); simpl; [| reflexivity].
  destruct (extract_blocked_users new_zip); simpl; [| reflexivity].
  destruct (extract_pending_requests new_zip); simpl; [| reflexivity].
  destruct old_zip as [old_bytes |]; [| reflexivity].
  destruct (checks "old_zip" old_bytes) as [[] | e]; simpl; [| reflexivity].
  destruct (extract_usernames_from_zip old_bytes) as [[f g] | e];
    simpl; reflexivity.
Qed.

Lemma extractSnapshot_http (b : zip_bytes) (status : Z) (detail : string) :
  extractSnapshot b = Raise (HTTPException status detail) ->
  extract_usernames_from_zip b = Raise (HTTPException 400 missing_detail) /\
  status = 400 /\ detail = missing_detail.
Proof.
  unfold extractSnapshot.
  destruct (extract_usernames_from_zip b) as [[f g] | e] eqn:He; simpl.
  - destruct (extract_recently_unfollowed b) eqn:H1; simpl;
      [| intros [= ->]; now apply no_http_extract_recently_unfollowed in H1].
    destruct (extract_blocked_users b) eqn:H2; simpl;
      [| intros [= ->]; now apply no_http_extract_blocked_users in H2].
    destruct (extract_pending_requests b) eqn:H3; simpl;
      [discriminate |
       intros [= ->]; now apply no_http_extract_pending_requests in H3].
  - intros [= ->]. now apply extract_usernames_http in He as (-> & -> & _).
Qed.

Lemma extractFollowers_http (b : zip_bytes) (status : Z) (detail : string) :
  extractFollowers b = Raise (HTTPException status detail) ->
  extract_usernames_from_zip b = Raise (HTTPException 400 missing_detail) /\
  status = 400 /\ detail = missing_detail.
Proof.
  unfold extractFollowers.
  destruct (extract_usernames_from_zip b) as [[f g] | e] eqn:He; simpl;
    [discriminate |].
  intros [= ->]. now apply extract_usernames_http in He as (-> & -> & _).
Qed.

Lemma no_http_diff (list_of_set : list json -> list json)
    (oldFollowers : option (list json)) (s : snapshot) :
  no_http (diff list_of_set oldFollowers s).
Proof.
  unfold diff. apply no_http_bind.
  - destruct oldFollowers; auto with no_http.
  - intros gone. no_http_steps.
Qed.

Lemma lacks_find (sub : string) (members : list ZipInfo) :
  find (contains sub) (namelist members) = None <-> lacks sub members.
Proof.
  split; [| apply find_lacks].
  unfold lacks. intros H. apply Forall_forall. intros n Hn.
  now apply (find_none _ _ H).
Qed.

Lemma extract_usernames_lacks (members : list ZipInfo) :
  lacks "followers_1.json" members \/ lacks "following.json" members <->
  extract_usernames_from_zip (ZipArchive members)
  = Raise (HTTPException 400 missing_detail).
Proof.
  split.
  - intros H. unfold extract_usernames_from_zip. simpl.
    destruct H as [H | H]; rewrite (find_lacks _ _ H); simpl; [reflexivity |].
    now rewrite orb_true_r.
  - intros H. apply extract_usernames_http in H as (_ & _ & m & [= <-] & H).
    now rewrite <- !lacks_find.
Qed.

(** An error of the old archive's checks is raised only after the new
    archive was checked and extracted. *)
Lemma old_check_error (list_of_set : list json -> list json)
    (new_zip old_bytes : zip_bytes) (detail : string) :
  detail <> missing_detail ->
  detail <> oversize_detail "new_zip" ->
  detail <> too_many_detail "new_zip" ->
  detail <> dangerous_detail "new_zip" ->
  analyze_zip_files list_of_set new_zip (Some old_bytes)
  = Raise (HTTPException 400 detail) <->
  validate "new_zip" new_zip = Ok tt /\
  (exists s, extractSnapshot new_zip = Ok s) /\
  validate "old_zip" old_bytes = Raise (HTTPException 400 detail).
Proof.
  intros Hm H1 H2 H3.
  rewrite analyze_is_handler_sequence. unfold handler_sequence.
  destruct (validate "new_zip" new_zip) as [[] | e] eqn:Hv; simpl.
  - destruct (extractSnapshot new_zip) as [s | e] eqn:Hs; simpl.
    + destruct (validate "old_zip" old_bytes) as [[] | e] eqn:Ho; simpl.
      * split; [| intros (_ & _ & H); discriminate].
        destruct (extractFollowers old_bytes) as [f | e] eqn:Hf; simpl.
        -- intros H. now apply no_http_diff in H.
        -- intros [= ->]. apply extractFollowers_http in Hf as (_ & _ & Hf).
           contradiction.
      * split; [| now intros (_ & _ & [= ->])].
        intros [= ->]. split; [reflexivity |]. split; [now exists s | reflexivity].
    + split; [| intros (_ & [s Hs'] & _); discriminate].
      intros [= ->]. apply extractSnapshot_http in Hs as (_ & _ & Hs). contradiction.
  - split; [| intros (H & _); discriminate].
    intros [= ->]. unfold validate in Hv.
    apply checks_http in Hv as (_ & [Hd | [Hd | Hd]]); contradiction.
Qed.

(** An error that names [old_zip] tells that the new archive passed its
    checks and was extracted, and which check the old archive failed
    first: size, then count, then extensions. *)
Theorem old_check_errors_come_after_the_new_archive
    (list_of_set : list json -> list json)
    (new_zip : zip_bytes) (members : list ZipInfo) :
  (analyze_zip_files list_of_set new_zip (Some (ZipArchive members))
   = Raise (HTTPException 400 "old_zip 압축 해제 용량 초과") <->
   validate "new_zip" new_zip = Ok tt /\
   (exists s, extractSnapshot new_zip = Ok s) /\
   (52428800 < sum (map file_size members))%N) /\
  (analyze_zip_files list_of_set new_zip (Some (ZipArchive members))
   = Raise (HTTPException 400 "old_zip 파일 수 초과") <->
   validate "new_zip" new_zip = Ok tt /\
   (exists s, extractSnapshot new_zip = Ok s) /\
   (sum (map file_size members) <= 52428800)%N /\
   (100 < List.length members)%nat) /\
  (analyze_zip_files list_of_set new_zip (Some (ZipArchive members))
   = Raise (HTTPException 400 "old_zip에 위험한 파일이 포함됨") <->
   validate "new_zip" new_zip = Ok tt /\
   (exists s, extractSnapshot new_zip = Ok s) /\
   (sum (map file_size members) <= 52428800)%N /\
   (List.length members <= 100)%nat /\
   exists name ext,
     In name (namelist members) /\ In ext DANGEROUS_EXTENSIONS /\
     endswith (lower name) ext = true).
Proof.
  assert (Hmax : MAX_SIZE = 52428800%N) by reflexivity.
  assert (Hfiles : MAX_FILES = 100%nat) by reflexivity.
  rewrite !old_check_error by discriminate.
  unfold validate.
  pose proof (checks_outcome "old_zip" members) as Hc.
  rewrite Hmax, Hfiles in Hc. rewrite <- dangerous_names. rewrite Hc. clear Hc.
  destruct (N.leb_spec (sum (map file_size members)) 52428800) as [Hs | Hs];
    [destruct (Nat.ltb_spec 100 (List.length members)) as [Hn | Hn];
     [| destruct (existsb _ (namelist members)) eqn:Hd] |].
  all: split; [| split]; split; intros (Hv & Hx & H);
    (split; [exact Hv |]); (split; [exact Hx |]).
  all: try discriminate H; try lia; try reflexivity.
  all: try (destruct H as (_ & _ & H); discriminate H).
  all: repeat split; auto; lia.
Qed.

(** The error of the missing document is raised in two cases only: the
    new archive passed its checks and lacks one of the two required
    documents; or the new archive was checked and extracted, and the old
    archive passed its checks and lacks one of them. *)
Theorem missing_document_error_has_two_causes
    (list_of_set : list json -> list json)
    (new_zip : zip_bytes) (old_zip : option zip_bytes) :
  analyze_zip_files list_of_set new_zip old_zip
  = Raise (HTTPException 400 "followers_1.json 또는 following.json이 누락됨") <->
  validate "new_zip" new_zip = Ok tt /\
  ((exists members,
       new_zip = ZipArchive members /\
       (lacks "followers_1.json" members \/ lacks "following.json" members)) \/
   (exists s, extractSnapshot new_zip = Ok s) /\
   (exists members,
       old_zip = Some (ZipArchive members) /\
       validate "old_zip" (ZipArchive members) = Ok tt /\
       (lacks "followers_1.json" members \/ lacks "following.json" members))).
Proof.
  change "followers_1.json 또는 following.json이 누락됨" with missing_detail.
  rewrite analyze_is_handler_sequence. unfold handler_sequence.
  destruct (validate "new_zip" new_zip) as [[] | e] eqn:Hv; simpl.
  - destruct (extractSnapshot new_zip) as [s | e] eqn:Hs; simpl.
    + assert (Hnew : ~ exists members,
                 new_zip = ZipArchive members /\
                 (lacks "followers_1.json" members \/ lacks "following.json" members)).
      { intros (m & -> & H). apply extract_usernames_lacks in H.
        unfold extractSnapshot in Hs. now rewrite H in Hs. }
      destruct old_zip as [old_bytes |]; simpl.
      * destruct (validate "old_zip" old_bytes) as [[] | e] eqn:Ho; simpl.
        -- destruct (extractFollowers old_bytes) as [f | e] eqn:Hf; simpl.
           ++ split; [intros H; now apply no_http_diff in H |].
              intros (_ & [H | (_ & m & [= ->] & _ & H)]); [contradiction |].
              apply extract_usernames_lacks in H. unfold extractFollowers in Hf.
              now rewrite H in Hf.
           ++ split.
              ** intros [= ->]. apply extractFollowers_http in Hf as (Hf & _).
                 apply extract_usernames_http in Hf as (_ & _ & m & -> & Hf).
                 rewrite !lacks_find in Hf. split; [reflexivity |]. right.
                 split; [now exists s |]. now exists m.
              ** intros (_ & [H | (_ & m & [= ->] & _ & H)]); [contradiction |].
                 apply extract_usernames_lacks in H. unfold extractFollowers in Hf.
                 rewrite H in Hf. simpl in Hf. congruence.
        -- split.
           ++ intros [= ->]. unfold validate in Ho.
              apply checks_http in Ho as (_ & [Hd | [Hd | Hd]]); discriminate.
           ++ intros (_ & [H | (_ & m & [= ->] & Ho' & _)]); [contradiction |].
              congruence.
      * split; [intros H; now apply no_http_diff in H |].
        intros (_ & [H | (_ & m & H & _)]); [contradiction | discriminate].
    + split.
      * intros [= ->]. apply extractSnapshot_http in Hs as (Hs & _).
        apply extract_usernames_http in Hs as (_ & _ & m & -> & Hs).
        rewrite !lacks_find in Hs. split; [reflexivity |]. left. now exists m.
      * intros (_ & [(m & -> & H) | ([s Hs'] & _)]); [| discriminate].
        apply extract_usernames_lacks in H. unfold extractSnapshot in Hs.
        rewrite H in Hs. simpl in Hs. congruence.
  - split; [| intros (H & _); discriminate].
    intros [= ->]. unfold validate in Hv.
    apply checks_http in Hv as (_ & [Hd | [Hd | Hd]]); discriminate.
Qed.

(** ** Well-formed exports are analysed *)

Lemma extract_usernames_names
    (members : list ZipInfo) (p q : string) (followers_info following_info : ZipInfo)
    (items relationships : list json) (document : list (string * json))
    (followers_names following_names : list (list string)) :
  first_match "followers_1.json" (namelist members) p ->
  first_match "following.json" (namelist members) q ->
  zip_open members p = Ok followers_info ->
  parsed followers_info = Some (JArr items) ->
  Forall2 item_values items (names_of followers_names) ->
  zip_open members q = Ok following_info ->
  parsed following_info = Some (JObj document) ->
  dict_lookup "relationships_following" document = Some (JArr relationships) ->
  Forall2 item_values relationships (names_of following_names) ->
  extract_usernames_from_zip (ZipArchive members)
  = Ok (py_set (map JStr (List.concat followers_names)),
        py_set (map JStr (List.concat following_names))).
Proof.
  intros Hp Hq Hfo Hfp Hfi Hgo Hgp Hgk Hgi.
  apply find_first_match in Hp, Hq.
  rewrite (extract_usernames_read members p q Hp Hq).
  unfold read_usernames, json_load.
  rewrite Hfo. simpl. rewrite Hfp. simpl.
  rewrite (flat_mapM_names items followers_names Hfi). simpl.
  rewrite Hgo. simpl. rewrite Hgp. simpl. rewrite Hgk. simpl.
  now rewrite (flat_mapM_names relationships following_names Hgi).
Qed.

(** [sorted] does not fail on names. *)
Lemma sorted_names (l : list json) :
  Forall (fun v => exists n, v = JStr n) l -> exists out, sorted l = Ok out.
Proof.
  intros H. unfold sorted. destruct l as [| x [| y l]]; eauto.
  assert (Hc : forallb (comparable x) (x :: y :: l) = true).
  { apply forallb_forall. intros v Hv. rewrite Forall_forall in H.
    destruct (H x (or_introl eq_refl)) as [n ->].
    destruct (H v Hv) as [m ->]. reflexivity. }
  rewrite Hc. eauto.
Qed.

(** An export with well-formed followers and following documents that
    passes the checks is analysed without exception, whatever its
    optional documents gave: the analysis returns a record, whose
    [not_following_back] is the ascending list of the names found in the
    following document and not in the followers document. *)
Theorem well_formed_export_is_analysed
    (list_of_set : list json -> list json)
    (members : list ZipInfo) (p q : string) (followers_info following_info : ZipInfo)
    (items relationships : list json) (document : list (string * json))
    (followers_names following_names : list (list string))
    (recently blocked pending : list json) :
  iteration_order list_of_set ->
  checks "new_zip" (ZipArchive members) = Ok tt ->
  first_match "followers_1.json" (namelist members) p ->
  first_match "following.json" (namelist members) q ->
  zip_open members p = Ok followers_info ->
  parsed followers_info = Some (JArr items) ->
  Forall2 item_values items (names_of followers_names) ->
  zip_open members q = Ok following_info ->
  parsed following_info = Some (JObj document) ->
  dict_lookup "relationships_following" document = Some (JArr relationships) ->
  Forall2 item_values relationships (names_of following_names) ->
  extract_recently_unfollowed (ZipArchive members) = Ok recently ->
  extract_blocked_users (ZipArchive members) = Ok blocked ->
  extract_pending_requests (ZipArchive members) = Ok pending ->
  exists not_back,
    analyze_zip_files list_of_set (ZipArchive members) None
    = Ok {| unfollowers := [];
            not_following_back := not_back;
            recently_unfollowed := recently;
            blocked_users := blocked;
            pending_requests := pending |} /\
    ascending not_back /\
    forall v, In v not_back <->
              exists n, v = JStr n /\
                        In n (List.concat following_names) /\
                        ~ In n (List.concat followers_names).
Proof.
  intros Horder Hc Hp Hq Hfo Hfp Hfi Hgo Hgp Hgk Hgi Hru Hbu Hpr.
  pose proof (extract_usernames_names members p q followers_info following_info
                items relationships document followers_names following_names
                Hp Hq Hfo Hfp Hfi Hgo Hgp Hgk Hgi) as He.
  set (F := py_set (map JStr (List.concat followers_names))) in *.
  set (G := py_set (map JStr (List.concat following_names))) in *.
  destruct (py_set_names (List.concat followers_names)) as [HF _].
  destruct (py_set_names (List.concat following_names)) as [HG _].
  fold F in HF. fold G in HG.
  assert (Hnames : Forall (fun v => exists n, v = JStr n)
                     (list_of_set (set_difference G F))).
  { apply Forall_forall. intros v Hv. rewrite (Horder _) in Hv.
    apply In_set_difference in Hv as [Hv _]. apply HG in Hv as (n & -> & _).
    now exists n. }
  destruct (sorted_names _ Hnames) as [not_back Hsorted].
  exists not_back. split.
  - now apply analyze_returns with F G.
  - destruct (sorted_difference list_of_set G F not_back Horder
                (distinct_py_set _) Hsorted) as (_ & Hasc & _ & Hin).
    split; [exact Hasc |]. intros v. rewrite Hin, HG. split.
    + intros [(n & -> & Hn) Hmem]. exists n. repeat split; try assumption.
      intros Hf. assert (Hm : set_mem (JStr n) F = true); [| congruence].
      apply set_mem_JStr, HF. now exists n.
    + intros (n & -> & Hn & Hnot). split; [now exists n |].
      destruct (set_mem (JStr n) F) eqn:E; [| reflexivity].
      apply set_mem_JStr, HF in E as (m & [= <-] & Hm). contradiction.
Qed.

Lemma well_formed_export_is_analysed_witness :
  iteration_order (@rev json) /\
  checks "new_zip" (ZipArchive nested_export) = Ok tt /\
  exists not_back,
    analyze_zip_files (@rev json) (ZipArchive nested_export) None
    = Ok {| unfollowers := [];
            not_following_back := not_back;
            recently_unfollowed := [];
            blocked_users := [];
            pending_requests := [] |} /\
    ascending not_back /\
    forall v, In v not_back <->
              exists n, v = JStr n /\
                        In n (List.concat [["c"]; []]) /\
                        ~ In n (List.concat [["a"; "b"]; []; ["a"]]).
Proof.
  assert (Horder : iteration_order (@rev json)).
  { intros s. apply Permutation_sym, Permutation_rev. }
  assert (Hp : first_match "followers_1.json" (namelist nested_export)
                 "export/2024/followers_1.json").
  { exists ["README.json"], ["export/2024/following.json"].
    repeat split; repeat constructor. }
  assert (Hq : first_match "following.json" (namelist nested_export)
                 "export/2024/following.json").
  { exists ["README.json"; "export/2024/followers_1.json"], [].
    repeat split; repeat constructor. }
  assert (Hvalued : forall v, valued (JObj [("value", v)]) v).
  { intros v. eexists. split; reflexivity. }
  assert (Hf : Forall2 item_values nested_followers
                 (names_of [["a"; "b"]; []; ["a"]])).
  { constructor; [eapply item_values_entries; [reflexivity | repeat constructor; apply Hvalued] |].
    constructor; [apply item_values_absent; reflexivity |].
    constructor; [eapply item_values_entries; [reflexivity | repeat constructor; apply Hvalued] |].
    constructor. }
  assert (Hg : Forall2 item_values nested_following (names_of [["c"]; []])).
  { constructor; [eapply item_values_entries; [reflexivity | repeat constructor; apply Hvalued] |].
    constructor; [eapply item_values_entries; [reflexivity | constructor] |].
    constructor. }
  split; [exact Horder |]. split; [reflexivity |].
  exact (well_formed_export_is_analysed (@rev json) nested_export
           "export/2024/followers_1.json" "export/2024/following.json"
           (member "export/2024/followers_1.json" 64 (JArr nested_followers))
           (member "export/2024/following.json" 64
              (JObj [("relationships_following", JArr nested_following)]))
           nested_followers nested_following
           [("relationships_following", JArr nested_following)]
           [["a"; "b"]; []; ["a"]] [["c"]; []] [] [] []
           Horder eq_refl Hp Hq eq_refl eq_refl Hf eq_refl eq_refl eq_refl Hg
           eq_refl eq_refl eq_refl).
Defined.

(** * The old archive, members stored under one name, and untitled records *)

(** ** What the analysis reads of the old archive *)






(** ** Several matching names, several members under one name *)

Lemma zip_open_last_named (members : list ZipInfo) (name : string) (info : ZipInfo) :
  last_named members name info -> zip_open members name = Ok info.
Proof.
  intros (before & after & -> & Hname & Hafter).
  assert (Hrest : zip_open after name = Raise KeyError).
  { induction Hafter as [| other after Hother _ IH]; simpl; [reflexivity |].
    rewrite IH. now apply String.eqb_neq in Hother as ->. }
  induction before as [| other before IH]; simpl.
  - rewrite Hrest. apply String.eqb_eq in Hname. now rewrite Hname.
  - now rewrite IH.
Qed.

(** C10 as stated fails on an export that stores two members under the
    one name [followers_1.json]: the extraction returns the followers of
    the member stored last, and the member stored first, which is the
    first matching entry, is the one that is ignored. *)
Lemma stored_twice_counterexample :
  namelist stored_twice = ["followers_1.json"; "following.json"; "followers_1.json"] /\
  find (contains "followers_1.json") (namelist stored_twice) = Some "followers_1.json" /\
  extract_usernames_from_zip (ZipArchive stored_twice)
  = Ok ([JStr "last"], [JStr "x"]) /\
  extract_usernames_from_zip
    (ZipArchive [member "followers_1.json" 64 (followers_document ["first"]);
                 member "following.json" 64 (following_document ["x"])])
  = Ok ([JStr "first"], [JStr "x"]) /\
  extract_usernames_from_zip
    (ZipArchive [{| filename := "followers_1.json"; file_size := 64; parsed := None |};
                 member "following.json" 64 (following_document ["x"]);
                 member "followers_1.json" 64 (followers_document ["last"])])
  = extract_usernames_from_zip (ZipArchive stored_twice).
Proof.
  repeat split; reflexivity.
Qed.

(** C10 (amended).  When several member names contain
    [followers_1.json], or several contain [following.json], the
    extraction raises nothing on that account (no [HTTPException] at
    all, both names being found).  It selects the first such
    name of the name list and reads the member stored last under exactly
    that name; every other member is ignored, those under other matching
    names and those stored earlier under the selected name alike: two
    archives in which the first matching names are the same, and in which
    the last members under these names hold the same documents, give the
    same followers and following, or the same exception. *)
Theorem first_matching_names_are_read
    (m1 m2 : list ZipInfo) (p q : string)
    (followers1 followers2 following1 following2 : ZipInfo) :
  first_match "followers_1.json" (namelist m1) p ->
  first_match "following.json" (namelist m1) q ->
  first_match "followers_1.json" (namelist m2) p ->
  first_match "following.json" (namelist m2) q ->
  last_named m1 p followers1 ->
  last_named m1 q following1 ->
  last_named m2 p followers2 ->
  last_named m2 q following2 ->
  parsed followers1 = parsed followers2 ->
  parsed following1 = parsed following2 ->
  find (contains "followers_1.json") (namelist m1) = Some p /\
  find (contains "following.json") (namelist m1) = Some q /\
  zip_open m1 p = Ok followers1 /\
  zip_open m1 q = Ok following1 /\
  no_http (extract_usernames_from_zip (ZipArchive m1)) /\
  extract_usernames_from_zip (ZipArchive m1)
  = extract_usernames_from_zip (ZipArchive m2).
Proof.
  intros Hp1 Hq1 Hp2 Hq2 Hf1 Hg1 Hf2 Hg2 Hf Hg.
  apply find_first_match in Hp1, Hq1, Hp2, Hq2.
  apply zip_open_last_named in Hf1, Hg1, Hf2, Hg2.
  repeat (split; [assumption |]).
  split.
  { intros status detail H.
    apply extract_usernames_http in H as (_ & _ & members & [= <-] & [H | H]);
      congruence. }
  rewrite (extract_usernames_read m1 p q Hp1 Hq1).
  rewrite (extract_usernames_read m2 p q Hp2 Hq2).
  unfold read_usernames, json_load.
  rewrite Hf1, Hg1, Hf2, Hg2. simpl. now rewrite Hf, Hg.
Qed.

Lemma first_matching_names_are_read_witness :
  first_match "followers_1.json" (namelist stored_twice) "followers_1.json" /\
  first_match "following.json" (namelist stored_twice) "following.json" /\
  first_match "followers_1.json" (namelist stored_twice_otherwise) "followers_1.json" /\
  first_match "following.json" (namelist stored_twice_otherwise) "following.json" /\
  last_named stored_twice "followers_1.json"
    (member "followers_1.json" 64 (followers_document ["last"])) /\
  last_named stored_twice_otherwise "followers_1.json"
    (member "followers_1.json" 64 (followers_document ["last"])) /\
  zip_open stored_twice "followers_1.json"
  = Ok (member "followers_1.json" 64 (followers_document ["last"])) /\
  extract_usernames_from_zip (ZipArchive stored_twice)
  = extract_usernames_from_zip (ZipArchive stored_twice_otherwise).
Proof.
  assert (Hp1 : first_match "followers_1.json" (namelist stored_twice)
                  "followers_1.json").
  { exists [], ["following.json"; "followers_1.json"]. repeat split; constructor. }
  assert (Hq1 : first_match "following.json" (namelist stored_twice)
                  "following.json").
  { exists ["followers_1.json"], ["followers_1.json"].
    repeat split; repeat constructor. }
  assert (Hp2 : first_match "followers_1.json" (namelist stored_twice_otherwise)
                  "followers_1.json").
  { exists [], ["z/followers_1.json"; "followers_1.json"; "following.json";
                "following.json"].
    repeat split; constructor. }
  assert (Hq2 : first_match "following.json" (namelist stored_twice_otherwise)
                  "following.json").
  { exists ["followers_1.json"; "z/followers_1.json"; "followers_1.json"],
      ["following.json"].
    repeat split; repeat constructor. }
  assert (Hf1 : last_named stored_twice "followers_1.json"
                  (member "followers_1.json" 64 (followers_document ["last"]))).
  { exists [member "followers_1.json" 64 (followers_document ["first"]);
            member "following.json" 64 (following_document ["x"])], [].
    repeat split; constructor. }
  assert (Hg1 : last_named stored_twice "following.json"
                  (member "following.json" 64 (following_document ["x"]))).
  { exists [member "followers_1.json" 64 (followers_document ["first"])],
      [member "followers_1.json" 64 (followers_document ["last"])].
    repeat split. repeat constructor. discriminate. }
  assert (Hf2 : last_named stored_twice_otherwise "followers_1.json"
                  (member "followers_1.json" 64 (followers_document ["last"]))).
  { exists [{| filename := "followers_1.json"; file_size := 1; parsed := None |};
            member "z/followers_1.json" 3 JNull],
      [member "following.json" 5 JNull;
       member "following.json" 64 (following_document ["x"])].
    repeat split. repeat constructor; discriminate. }
  assert (Hg2 : last_named stored_twice_otherwise "following.json"
                  (member "following.json" 64 (following_document ["x"]))).
  { exists [{| filename := "followers_1.json"; file_size := 1; parsed := None |};
            member "z/followers_1.json" 3 JNull;
            member "followers_1.json" 64 (followers_document ["last"]);
            member "following.json" 5 JNull], [].
    repeat split; constructor. }
  destruct (first_matching_names_are_read stored_twice stored_twice_otherwise
              "followers_1.json" "following.json" _ _ _ _
              Hp1 Hq1 Hp2 Hq2 Hf1 Hg1 Hf2 Hg2 eq_refl eq_refl)
    as (_ & _ & Hopen & _ & _ & Hsame).
  repeat (split; [assumption |]). exact Hsame.
Defined.

(** ** A blocked-profiles entry without a title *)

Lemma mapM_titles_stop (good titles : list json) (bad : json) (rest : list json)
    (e : exn) :
  Forall2 titled good titles ->
  py_getitem bad "title" = Raise e ->
  mapM (fun entry => py_getitem entry "title") (good ++ bad :: rest) = Raise e.
Proof.
  intros Hgood Hbad.
  induction Hgood as [| record title good titles (fields & -> & Ht) _ IH]; simpl.
  - now rewrite Hbad.
  - now rewrite Ht, IH.
Qed.

(** C9 as stated fails when an entry that is not an object comes before
    the untitled record: the subscript of the string raises [TypeError],
    which the extractor does not catch, and the analysis ends in the
    generic 500. *)
Lemma mistyped_blocked_counterexample :
  existsb (fun entry => is_record entry && negb (has_title entry)) mistyped_records
  = true /\
  extract_blocked_users (ZipArchive mistyped_blocked) = Raise TypeError /\
  analyze_zip_files (fun s => s) (ZipArchive mistyped_blocked) None = Raise TypeError /\
  validate_origin_middleware
    (analyze_zip_files (fun s => s) (ZipArchive mistyped_blocked) None)
  = {| status_code := 500; content := Detail "Internal server error" |}.
Proof.
  repeat split; reflexivity.
Qed.

(** C9 (amended).  When the blocked-profiles document parses and, under
    [relationships_blocked_users], the first entry that is not an object
    with a [title] is an object without one, the extractor returns the
    empty list, the titles read before it lost with it: the [KeyError] of
    that record is caught like the one of a missing path, and the
    analysis goes on, returning the record of its other stages with no
    blocked user.  What follows that record is not looked at.  When that
    first entry is not an object at all, the extractor raises
    [TypeError] instead, which it does not catch. *)
Theorem untitled_blocked_record_empties_the_list
    (list_of_set : list json -> list json)
    (members : list ZipInfo) (old_zip : option zip_bytes)
    (info : ZipInfo) (document : list (string * json))
    (good titles rest : list json) (bad : json)
    (new_followers new_following recently pending gone not_back : list json) :
  zip_open members blocked_path = Ok info ->
  parsed info = Some (JObj document) ->
  dict_lookup "relationships_blocked_users" document
  = Some (JArr (good ++ bad :: rest)) ->
  Forall2 titled good titles ->
  has_title bad = false ->
  (is_record bad = true ->
   extract_blocked_users (ZipArchive members) = Ok [] /\
   (checks "new_zip" (ZipArchive members) = Ok tt ->
    extract_usernames_from_zip (ZipArchive members)
    = Ok (new_followers, new_following) ->
    extract_recently_unfollowed (ZipArchive members) = Ok recently ->
    extract_pending_requests (ZipArchive members) = Ok pending ->
    match old_zip with
    | None => gone = []
    | Some old_bytes =>
        checks "old_zip" old_bytes = Ok tt /\
        exists old_followers old_following,
          extract_usernames_from_zip old_bytes = Ok (old_followers, old_following) /\
          sorted (list_of_set (set_difference old_followers new_followers)) = Ok gone
    end ->
    sorted (list_of_set (set_difference new_following new_followers)) = Ok not_back ->
    analyze_zip_files list_of_set (ZipArchive members) old_zip
    = Ok {| unfollowers := gone;
            not_following_back := not_back;
            recently_unfollowed := recently;
            blocked_users := [];
            pending_requests := pending |})) /\
  (is_record bad = false ->
   extract_blocked_users (ZipArchive members) = Raise TypeError).
Proof.
  intros Hopen Hparsed Husers Hgood Hbad.
  assert (Hextract : forall e,
             py_getitem bad "title" = Raise e ->
             extract_blocked_users (ZipArchive members)
             = except_KeyError (Raise e) []).
  { intros e He. unfold extract_blocked_users, json_load. simpl.
    rewrite Hopen. simpl. rewrite Hparsed. simpl. rewrite Husers. simpl.
    now rewrite (mapM_titles_stop good titles bad rest e Hgood He). }
  split.
  - intros Hrecord.
    assert (Hb : extract_blocked_users (ZipArchive members) = Ok []).
    { rewrite (Hextract KeyError); [reflexivity |].
      destruct bad as [| | | | | fields]; try discriminate. simpl in *.
      now destruct (dict_lookup "title" fields). }
    split; [exact Hb |]. intros Hc He Hru Hpr Hold Hn.
    now apply analyze_returns with new_followers new_following.
  - intros Hrecord. rewrite (Hextract TypeError); [reflexivity |].
    now destruct bad.
Qed.

Lemma untitled_blocked_record_empties_the_list_witness :
  zip_open untitled_blocked blocked_path
  = Ok (member blocked_path 64
          (JObj [("relationships_blocked_users", JArr blocked_records)])) /\
  Forall2 titled [JObj [("title", JStr "first")]] [JStr "first"] /\
  has_title (JObj [("timestamp", JNum 1700000000)]) = false /\
  is_record (JObj [("timestamp", JNum 1700000000)]) = true /\
  extract_blocked_users (ZipArchive untitled_blocked) = Ok [] /\
  analyze_zip_files (fun s => s) (ZipArchive untitled_blocked) None
  = Ok {| unfollowers := [];
          not_following_back := [JStr "d"];
          recently_unfollowed := [];
          blocked_users := [];
          pending_requests := [] |}.
Proof.
  assert (Hgood : Forall2 titled [JObj [("title", JStr "first")]] [JStr "first"]).
  { constructor; [| constructor]. eexists. split; reflexivity. }
  split; [reflexivity |]. split; [exact Hgood |].
  split; [reflexivity |]. split; [reflexivity |].
  destruct (proj1 (untitled_blocked_record_empties_the_list (fun s => s)
                     untitled_blocked None
                     (member blocked_path 64
                        (JObj [("relationships_blocked_users", JArr blocked_records)]))
                     [("relationships_blocked_users", JArr blocked_records)]
                     [JObj [("title", JStr "first")]] [JStr "first"]
                     [JObj [("title", JStr "third")]]
                     (JObj [("timestamp", JNum 1700000000)])
                     [JStr "a"; JStr "c"] [JStr "a"; JStr "d"] [] [] [] [JStr "d"]
                     eq_refl eq_refl eq_refl Hgood eq_refl) eq_refl)
    as [Hb Hrun].
  split; [exact Hb |].
  apply Hrun; reflexivity.
Defined.
